(** * ascii-image-converter: image_conversions.go

    A shallow embedding of [ConvertToAsciiPixels] and [reverse] from
    [image_manipulation/image_conversions.go], and the properties of the
    dimension resolver and the pixel sampler proved about it.

    Go's [int] is taken at 64 bits and written as [Z] with its wrap-around
    made explicit; [uint32] and [uint8] likewise.  The resampling primitive
    [imaging.Resize] and the terminal query [winsize.GetTerminalSize] are
    collaborators outside the file: they are parameters of the embedding. *)

From Stdlib Require Import ZArith List Lia Bool.
From Stdlib Require Import Strings.Byte DecimalString.
From stdpp Require Import base list strings.
From Equations Require Import Equations.

Local Open Scope Z_scope.

(** ** Machine integers *)

Module GoInt.

Definition min_int : Z := - 2 ^ 63.
Definition max_int : Z := 2 ^ 63 - 1.

(** Two's complement wrap-around of a 64-bit [int]. *)
Definition wrap (z : Z) : Z := (z + 2 ^ 63) mod 2 ^ 64 - 2 ^ 63.

Definition sub (a b : Z) : Z := wrap (a - b).
Definition mul (a b : Z) : Z := wrap (a * b).

(** [uint32] and [uint8] arithmetic is modulo the word size. *)
Definition u32 (z : Z) : Z := z mod 2 ^ 32.

Definition uint8 (z : Z) : byte :=
  match Byte.of_N (Z.to_N (z mod 256)) with
  | Some b => b
  | None => Byte.x00
  end.

Definition of_uint8 (b : byte) : Z := Z.of_N (Byte.to_N b).

(** [float64(i)] for an [int] [i]: the nearest binary64 value, ties to
    even.  The value of such a float is again an integer, so it is kept
    as a [Z]; integers below [2^53] in magnitude are left unchanged. *)
Definition float64 (i : Z) : Z :=
  let a := Z.abs i in
  let e := Z.log2 a - 52 in
  if e <=? 0 then i
  else
    let q := Z.shiftr a e in
    let r := a - Z.shiftl q e in
    let half := Z.shiftl 1 (e - 1) in
    let q' := if r <? half then q
              else if half <? r then q + 1
              else if Z.even q then q else q + 1 in
    Z.sgn i * Z.shiftl q' e.

(** [int(0.5 * f)]: the product is exact, the conversion truncates
    toward zero. *)
Definition int_of_half (f : Z) : Z := Z.quot f 2.

(** [int(2 * f)]: the product is exact; a value outside the range of
    [int] converts to the most negative [int] (amd64). *)
Definition int_of_twice (f : Z) : Z :=
  let d := 2 * f in
  if (min_int <=? d) && (d <=? max_int) then d else min_int.

End GoInt.

(** ** Outcomes of a call: a value, a returned [error], or a run-time panic *)

Definition error : Type := string.

Inductive outcome (T : Type) : Type :=
| Returned (v : T)
| Failed (err : error)
| Panicked.
Arguments Returned {T} v.
Arguments Failed {T} err.
Arguments Panicked {T}.

(** Sequencing: the first error or panic ends the call. *)
#[global] Instance outcome_bind : MBind outcome := fun T U k o =>
  match o with
  | Returned v => k v
  | Failed err => Failed err
  | Panicked => Panicked
  end.

(** [s[i]] on a slice: out of range is a panic. *)
Definition index {T : Type} (s : list T) (i : Z) : outcome T :=
  if i <? 0 then Panicked
  else match s !! Z.to_nat i with
       | Some v => Returned v
       | None => Panicked
       end.

(** [len(s)] *)
Definition len {T : Type} (s : list T) : Z := Z.of_nat (length s).

(** The values [k] takes in [for k := lo; k < hi; k++]. *)
Definition range (lo hi : Z) : list Z :=
  map (fun k => lo + Z.of_nat k) (seq 0 (Z.to_nat (hi - lo))).

(** [for k := lo; k < hi; k++ { s = body(k, s) }] *)
Definition for_range {S : Type} (lo hi : Z) (body : Z -> S -> S) (s : S) : S :=
  fold_left (fun acc k => body k acc) (range lo hi) s.

(** ** The standard library's [image] and [image/color], as far as the
    conversion uses them *)

Module color.

(** [color.NRGBA]: non-premultiplied 8-bit channels. *)
Record NRGBA : Type := { R : byte; G : byte; B : byte; A : byte }.

(** [color.Gray] *)
Record Gray : Type := { Y : byte }.

Definition premul (c a : byte) : Z :=
  let r := GoInt.of_uint8 c in
  let r := Z.lor r (GoInt.u32 (Z.shiftl r 8)) in
  let r := GoInt.u32 (r * GoInt.of_uint8 a) in
  r / 255.

(** [func (c NRGBA) RGBA() (r, g, b, a uint32)] *)
Definition NRGBA_RGBA (c : NRGBA) : Z * Z * Z * Z :=
  let a := GoInt.of_uint8 (A c) in
  (premul (R c) (A c), premul (G c) (A c), premul (B c) (A c),
   Z.lor a (GoInt.u32 (Z.shiftl a 8))).

(** [func (c Gray) RGBA() (r, g, b, a uint32)] *)
Definition Gray_RGBA (c : Gray) : Z * Z * Z * Z :=
  let y := GoInt.of_uint8 (Y c) in
  let y := Z.lor y (GoInt.u32 (Z.shiftl y 8)) in
  (y, y, y, 65535).

(** [GrayModel.Convert] on a colour that is not already a [Gray]. *)
Definition grayModel (c : NRGBA) : Gray :=
  let '(r, g, b, _) := NRGBA_RGBA c in
  let y := Z.shiftr (GoInt.u32 (19595 * r + 38470 * g + 7471 * b + Z.shiftl 1 15)) 24 in
  {| Y := GoInt.uint8 y |}.

End color.

Module image.

Record Point : Type := { X : Z; Y : Z }.
Record Rectangle : Type := { Min : Point; Max : Point }.

(** [*image.NRGBA], the type of every image [imaging.Resize] returns:
    its bounds and its pixels (the [Pix] bytes read through [Stride]). *)
Record NRGBA : Type := { Rect : Rectangle; Pix : Z -> Z -> color.NRGBA }.

Definition Bounds (p : NRGBA) : Rectangle := Rect p.

Definition In (x y : Z) (r : Rectangle) : bool :=
  (X (Min r) <=? x) && (x <? X (Max r)) && (Y (Min r) <=? y) && (y <? Y (Max r)).

(** [func (p *NRGBA) At(x, y int) color.Color] *)
Definition At (p : NRGBA) (x y : Z) : color.NRGBA :=
  if In x y (Rect p) then Pix p x y
  else {| color.R := Byte.x00; color.G := Byte.x00; color.B := Byte.x00; color.A := Byte.x00 |}.

End image.

(** ** image_conversions.go *)

Import image.

Record AsciiPixel : Type := {
  charDepth : Z;
  grayscaleValue : Z * Z * Z;
  rgbValue : Z * Z * Z
}.

Definition resizeForBraille (asciiWidth asciiHeight : Z) : Z * Z :=
  (GoInt.mul asciiWidth 2, GoInt.mul asciiHeight 4).

(** The three messages built with [fmt.Errorf]. *)
Definition errSetWidth : error := "set width must be lower than terminal width".
Definition errCalcWidth : error := "width calculated with aspect ratio exceeds terminal width".
Definition errBoth : error := "both width and height can't be set. Use dimensions instead".

(** *** [reverse] *)

(** [s[i], s[j] = s[j], s[i]]: both operands are read, then [s[i]] and
    [s[j]] are written in that order. *)
Definition swap {T : Type} (s : list T) (i j : Z) : outcome (list T) :=
  vj ← index s j;
  vi ← index s i;
  Returned (<[Z.to_nat j := vi]> (<[Z.to_nat i := vj]> s)).

(** [for i, j := i0, j0; i < j; i, j = i+1, j-1 { s[i], s[j] = s[j], s[i] }] *)
Equations? swap_loop {T : Type} (i j : Z) (s : list T) : outcome (list T)
  by wf (Z.to_nat (j - i)) lt :=
  swap_loop i j s with Z_lt_dec i j => {
    | left _ with swap s i j => {
        | Returned s' => swap_loop (i + 1) (j - 1) s'
        | Failed err => Failed err
        | Panicked => Panicked }
    | right _ => Returned s }.
Proof. lia. Qed.

(** [for _, row := range imgSet { ... }]: every row is reversed in its own
    backing array.  The rows of a grid built by [ConvertToAsciiPixels] are
    separate allocations (each [temp] starts from nil), and [reverse] is
    package-private, so the grid is a list of independent rows. *)
Fixpoint reverse_rows (imgSet : list (list AsciiPixel)) : outcome (list (list AsciiPixel)) :=
  match imgSet with
  | [] => Returned []
  | row :: rest =>
      row' ← swap_loop 0 (len row - 1) row;
      rest' ← reverse_rows rest;
      Returned (row' :: rest')
  end.

Definition reverse (imgSet : list (list AsciiPixel)) (flipX flipY : bool)
  : outcome (list (list AsciiPixel)) :=
  imgSet ← (if flipX then reverse_rows imgSet else Returned imgSet);
  imgSet ← (if flipY then swap_loop 0 (len imgSet - 1) imgSet else Returned imgSet);
  Returned imgSet.

(** *** The pixel loop of [ConvertToAsciiPixels] (lines 161-194) *)

(** The body of the inner loop: one [AsciiPixel] from one pixel. *)
Definition asciiPixel (oldPixel : color.NRGBA) : AsciiPixel :=
  let grayPixel := color.grayModel oldPixel in
  let '(r1, g1, b1, _) := color.Gray_RGBA grayPixel in
  let charDepth := r1 / 257 in
  let r1 := GoInt.u32 (r1 / 257) in
  let g1 := GoInt.u32 (g1 / 257) in
  let b1 := GoInt.u32 (b1 / 257) in
  let '(r2, g2, b2, _) := color.NRGBA_RGBA oldPixel in
  let r2 := GoInt.u32 (r2 / 257) in
  let g2 := GoInt.u32 (g2 / 257) in
  let b2 := GoInt.u32 (b2 / 257) in
  {| charDepth := charDepth;
     grayscaleValue := (r1, g1, b1);
     rgbValue := (r2, g2, b2) |}.

Definition sample (smallImg : image.NRGBA) : list (list AsciiPixel) :=
  let b := Bounds smallImg in
  for_range (Y (Min b)) (Y (Max b)) (fun y imgSet =>
    let temp :=
      for_range (X (Min b)) (X (Max b)) (fun x temp =>
        temp ++ [asciiPixel (At smallImg x y)]) [] in
    imgSet ++ [temp]) [].

(** *** The dimension resolver of [ConvertToAsciiPixels] (lines 48-159) *)

Section Resolver.

(** The caller's [image.Image]. *)
Context {Image : Type}.

(** [imaging.Resize(img, width, height, imaging.Lanczos)] *)
Variable Resize : Image -> Z -> Z -> image.NRGBA.

(** [smallImg.Bounds().Max.X - smallImg.Bounds().Min.X] and its [Y] twin. *)
Definition Dx (smallImg : image.NRGBA) : Z :=
  GoInt.sub (X (Max (Bounds smallImg))) (X (Min (Bounds smallImg))).
Definition Dy (smallImg : image.NRGBA) : Z :=
  GoInt.sub (Y (Max (Bounds smallImg))) (Y (Min (Bounds smallImg))).

(** [if isBraille { asciiWidth, asciiHeight = resizeForBraille(...) }] *)
Definition cellScale (isBraille : bool) (asciiWidth asciiHeight : Z) : Z * Z :=
  if isBraille then resizeForBraille asciiWidth asciiHeight
  else (asciiWidth, asciiHeight).

(** The tail shared by the four branches: cell scaling, then the final
    resize; the outcome carries [asciiWidth], [asciiHeight] and
    [smallImg] as they stand at line 150. *)
Definition finish (img : Image) (isBraille : bool) (asciiWidth asciiHeight : Z)
  : Z * Z * image.NRGBA :=
  let '(asciiWidth, asciiHeight) := cellScale isBraille asciiWidth asciiHeight in
  (asciiWidth, asciiHeight, Resize img asciiWidth asciiHeight).

(** [if full] (lines 57-64) *)
Definition fullSize (img : Image) (terminalWidth : Z) : Z * Z :=
  let asciiWidth := GoInt.sub terminalWidth 1 in
  let smallImg := Resize img asciiWidth 0 in
  let asciiHeight := Dy smallImg in
  let asciiHeight := GoInt.int_of_half (GoInt.float64 asciiHeight) in
  (asciiWidth, asciiHeight).

(** [width != 0 && height == 0] (lines 81-89) *)
Definition widthSize (img : Image) (width : Z) : Z * Z :=
  let asciiWidth := width in
  let smallImg := Resize img asciiWidth 0 in
  let asciiHeight := Dy smallImg in
  let asciiHeight := GoInt.int_of_half (GoInt.float64 asciiHeight) in
  let asciiHeight := if asciiHeight =? 0 then 1 else asciiHeight in
  (asciiWidth, asciiHeight).

(** [height != 0 && width == 0] (lines 94-103) *)
Definition heightSize (img : Image) (height terminalWidth : Z) : outcome (Z * Z) :=
  let asciiHeight := height in
  let smallImg := Resize img 0 asciiHeight in
  let asciiWidth := Dx smallImg in
  let asciiWidth := GoInt.int_of_twice (GoInt.float64 asciiWidth) in
  if asciiWidth >? GoInt.sub terminalWidth 1 then Failed errCalcWidth
  else Returned (asciiWidth, asciiHeight).

(** [(width != 0 || height != 0) && len(dimensions) == 0] (lines 74-107) *)
Definition axisSize (img : Image) (width height terminalWidth : Z) : outcome (Z * Z) :=
  if width >? GoInt.sub terminalWidth 1 then Failed errSetWidth
  else if negb (width =? 0) && (height =? 0) then Returned (widthSize img width)
  else if negb (height =? 0) && (width =? 0) then heightSize img height terminalWidth
  else Failed errBoth.

(** [len(dimensions) == 0] (lines 117-135) *)
Definition autoSize (img : Image) (terminalWidth terminalHeight : Z) : Z * Z :=
  let asciiHeight := GoInt.sub terminalHeight 1 in
  let smallImg := Resize img 0 asciiHeight in
  let asciiWidth := Dx smallImg in
  let asciiWidth := GoInt.int_of_twice (GoInt.float64 asciiWidth) in
  if asciiWidth >=? terminalWidth then
    let asciiWidth := GoInt.sub terminalWidth 1 in
    let smallImg := Resize img asciiWidth 0 in
    let asciiHeight := Dy smallImg in
    let asciiHeight := GoInt.int_of_half (GoInt.float64 asciiHeight) in
    (asciiWidth, asciiHeight)
  else (asciiWidth, asciiHeight).

(** The final [else] (lines 143-144) *)
Definition givenSize (dimensions : list Z) : outcome (Z * Z) :=
  asciiWidth ← index dimensions 0;
  asciiHeight ← index dimensions 1;
  Returned (asciiWidth, asciiHeight).

(** The [if / else if] chain of lines 56-150: the sizes before cell
    scaling, by sizing mode. *)
Definition size (img : Image) (dimensions : list Z) (width height : Z)
    (full : bool) (terminalWidth terminalHeight : Z) : outcome (Z * Z) :=
  if full then Returned (fullSize img terminalWidth)
  else if (negb (width =? 0) || negb (height =? 0)) && (len dimensions =? 0) then
    axisSize img width height terminalWidth
  else if len dimensions =? 0 then
    Returned (autoSize img terminalWidth terminalHeight)
  else givenSize dimensions.

Definition resolve (img : Image) (dimensions : list Z) (width height : Z)
    (full isBraille : bool) (terminalWidth terminalHeight : Z)
  : outcome (Z * Z * image.NRGBA) :=
  '(asciiWidth, asciiHeight) ←
    size img dimensions width height full terminalWidth terminalHeight;
  Returned (finish img isBraille asciiWidth asciiHeight).

(** Lines 155-159: the width check on passed dimensions. *)
Definition checkDimensions (dimensions : list Z) (full : bool) (terminalWidth : Z)
  : outcome unit :=
  if (len dimensions >? 0) && negb full then
    d ← index dimensions 0;
    if d >? GoInt.sub terminalWidth 1 then Failed errSetWidth else Returned tt
  else Returned tt.

(** [ConvertToAsciiPixels]; [GetTerminalSize] is the triple that
    [winsize.GetTerminalSize()] returned. *)
Definition ConvertToAsciiPixels (GetTerminalSize : Z * Z * option error)
    (img : Image) (dimensions : list Z) (width height : Z)
    (flipX flipY full isBraille : bool) : outcome (list (list AsciiPixel)) :=
  let '(terminalWidth, terminalHeight, err) := GetTerminalSize in
  match err with
  | Some err => Failed err
  | None =>
      '(_, _, smallImg) ←
        resolve img dimensions width height full isBraille terminalWidth terminalHeight;
      _ ← checkDimensions dimensions full terminalWidth;
      let imgSet := sample smallImg in
      if flipX || flipY then reverse imgSet flipX flipY
      else Returned imgSet
  end.

End Resolver.

(** ** Auxiliary notions used in the statements *)

(** The grid [reverse] hands back, in closed form: [flipX] reverses every
    row, [flipY] the order of the rows. *)
Definition mirror (flipX flipY : bool) (imgSet : list (list AsciiPixel))
  : list (list AsciiPixel) :=
  let imgSet := if flipX then map (@rev AsciiPixel) imgSet else imgSet in
  if flipY then rev imgSet else imgSet.

Fixpoint contains (needle hay : string) : bool :=
  String.prefix needle hay ||
  match hay with
  | EmptyString => false
  | String _ rest => contains needle rest
  end.

(** A message names a value when the decimal numeral of the value occurs
    in it. *)
Definition names_value (msg : error) (v : Z) : bool :=
  contains (NilZero.string_of_int (Z.to_int v)) msg.

(** The characters a decimal numeral is written with. *)
Definition numeral_char (c : Ascii.ascii) : bool :=
  let n := Z.of_nat (Ascii.nat_of_ascii c) in
  ((48 <=? n) && (n <=? 57)) || (n =? 45).

Fixpoint has_numeral (msg : string) : bool :=
  match msg with
  | EmptyString => false
  | String c rest => numeral_char c || has_numeral rest
  end.

(** Half of [h] rounded to the nearest integer, a tie going away from
    zero ([math.Round]) or to the even neighbour. *)
Definition round_half_away (h : Z) : Z := Z.sgn h * ((Z.abs h + 1) / 2).
Definition round_half_even (h : Z) : Z :=
  let q := h / 2 in
  if h mod 2 =? 0 then q else if Z.even q then q else q + 1.

(** The ranges the data model gives the fields of an [AsciiPixel]. *)
Definition eight_bit (z : Z) : Prop := 0 <= z <= 255.

Definition eight_bit_pixel (p : AsciiPixel) : Prop :=
  eight_bit (charDepth p) /\
  (let '(r, g, b) := grayscaleValue p in eight_bit r /\ eight_bit g /\ eight_bit b) /\
  (let '(r, g, b) := rgbValue p in eight_bit r /\ eight_bit g /\ eight_bit b).

Definition zeroPixel : AsciiPixel :=
  {| charDepth := 0; grayscaleValue := (0, 0, 0); rgbValue := (0, 0, 0) |}.

(** Every pixel inside the bounds is black, whatever its alpha. *)
Definition fully_black (p : image.NRGBA) : Prop :=
  forall x y, In x y (Bounds p) = true ->
    color.R (At p x y) = Byte.x00 /\ color.G (At p x y) = Byte.x00 /\
    color.B (At p x y) = Byte.x00.

(** ** A reference collaborator for concrete runs

    [imaging.Resize] is outside the file.  For concrete inputs the
    development uses a resampler with the size rule of [imaging.Resize]
    (a negative target, a target of [0, 0] and an empty source give the
    empty image; a target of [0] on one axis is replaced by the size that
    keeps the aspect ratio, at least [1]) and nearest-neighbour content. *)

Record Raster : Type := {
  rasterW : Z;
  rasterH : Z;
  rasterAt : Z -> Z -> color.NRGBA
}.

Definition emptyNRGBA : image.NRGBA :=
  {| Rect := {| Min := {| X := 0; Y := 0 |}; Max := {| X := 0; Y := 0 |} |};
     Pix := fun _ _ =>
       {| color.R := Byte.x00; color.G := Byte.x00; color.B := Byte.x00; color.A := Byte.x00 |} |}.

(** [int(math.Max(1.0, math.Floor(dst * a / b + 0.5)))] *)
Definition keepAspect (dst a b : Z) : Z := Z.max 1 ((2 * dst * a + b) / (2 * b)).

Definition refResize (img : Raster) (width height : Z) : image.NRGBA :=
  let srcW := rasterW img in
  let srcH := rasterH img in
  if (width <? 0) || (height <? 0) then emptyNRGBA
  else if (width =? 0) && (height =? 0) then emptyNRGBA
  else if (srcW <=? 0) || (srcH <=? 0) then emptyNRGBA
  else
    let dstW := if width =? 0 then keepAspect height srcW srcH else width in
    let dstH := if height =? 0 then keepAspect dstW srcH srcW else height in
    {| Rect := {| Min := {| X := 0; Y := 0 |}; Max := {| X := dstW; Y := dstH |} |};
       Pix := fun x y => rasterAt img (x * srcW / dstW) (y * srcH / dstH) |}.

Definition opaque (r g b : byte) : color.NRGBA :=
  {| color.R := r; color.G := g; color.B := b; color.A := Byte.xff |}.

(** A uniformly grey source image of the given size. *)
Definition plain (w h : Z) : Raster :=
  {| rasterW := w; rasterH := h; rasterAt := fun _ _ => opaque Byte.x80 Byte.x80 Byte.x80 |}.

(** A black source image of the given size. *)
Definition black (w h : Z) : Raster :=
  {| rasterW := w; rasterH := h; rasterAt := fun _ _ => opaque Byte.x00 Byte.x00 Byte.x00 |}.

(** A source image whose grey level tells the position: [10 x + y]. *)
Definition ramp (w h : Z) : Raster :=
  {| rasterW := w; rasterH := h;
     rasterAt := fun x y =>
       opaque (GoInt.uint8 (10 * x + y)) (GoInt.uint8 (10 * x + y))
              (GoInt.uint8 (10 * x + y)) |}.

(** * Properties *)

(** ** Concrete runs of the embedding *)

Example wrap_max_plus_one : GoInt.wrap (GoInt.max_int + 1) = GoInt.min_int.
Proof. reflexivity. Qed.

Example float64_tie_to_even :
  GoInt.float64 (2 ^ 53 + 1) = 2 ^ 53 /\ GoInt.float64 (2 ^ 53 + 3) = 2 ^ 53 + 4.
Proof. split; reflexivity. Qed.

Example int_of_half_odd : GoInt.int_of_half (GoInt.float64 3) = 1.
Proof. reflexivity. Qed.

Example gray_of_red :
  color.Gray_RGBA (color.grayModel (opaque Byte.xff Byte.x00 Byte.x00))
  = (19532, 19532, 19532, 65535).
Proof. reflexivity. Qed.

Example swap_loop_five : swap_loop 0 4 [10; 20; 30; 40; 50] = Returned [50; 40; 30; 20; 10].
Proof. reflexivity. Qed.

Example swap_out_of_range : swap [10; 20] 0 2 = Panicked.
Proof. reflexivity. Qed.

(** The scenario of a source of 400 by 200 on a surface of 80 by 24:
    height 23 gives width 2 * 46 = 92, beyond 79, so the size is derived
    from width 79. *)
Example auto_400_200 :
  Dx (refResize (plain 400 200) 0 23) = 46 /\
  size refResize (plain 400 200) [] 0 0 false 80 24 = Returned (79, 20).
Proof. split; reflexivity. Qed.

Example by_height_10 :
  size refResize (plain 400 200) [] 0 10 false 80 24 = Returned (40, 10).
Proof. reflexivity. Qed.

Example terminal_unavailable :
  ConvertToAsciiPixels refResize (0, 0, Some "not a terminal"%string) (plain 4 4)
                       [] 0 0 false false false false
  = Failed "not a terminal"%string.
Proof. reflexivity. Qed.

(** ** Machine integers: when nothing wraps *)

Lemma wrap_in_range (z : Z) :
  GoInt.min_int <= z <= GoInt.max_int -> GoInt.wrap z = z.
Proof.
  unfold GoInt.min_int, GoInt.max_int, GoInt.wrap. intros H.
  rewrite Z.mod_small; lia.
Qed.

Lemma float64_exact (i : Z) : Z.abs i < 2 ^ 53 -> GoInt.float64 i = i.
Proof.
  intros H. unfold GoInt.float64.
  destruct (Z.eq_dec i 0) as [-> | Hne]; [reflexivity |].
  assert (Hlog : Z.log2 (Z.abs i) < 53) by (apply Z.log2_lt_pow2; lia).
  destruct (Z.leb_spec (Z.log2 (Z.abs i) - 52) 0); [reflexivity | lia].
Qed.

Lemma int_of_half_float64 (h : Z) :
  Z.abs h < 2 ^ 53 -> GoInt.int_of_half (GoInt.float64 h) = h ÷ 2.
Proof. intros H. rewrite float64_exact by exact H. reflexivity. Qed.

Lemma int_of_twice_float64 (w : Z) :
  Z.abs w < 2 ^ 53 -> GoInt.int_of_twice (GoInt.float64 w) = 2 * w.
Proof.
  intros H. rewrite float64_exact by exact H.
  unfold GoInt.int_of_twice, GoInt.min_int, GoInt.max_int.
  destruct (Z.leb_spec (- 2 ^ 63) (2 * w)), (Z.leb_spec (2 * w) (2 ^ 63 - 1));
    simpl; lia.
Qed.

(** ** The swap loop reverses *)

Lemma index_middle {T : Type} (pre post : list T) (x : T) :
  index (pre ++ x :: post) (len pre) = Returned x.
Proof.
  unfold index, len.
  destruct (Z.ltb_spec (Z.of_nat (length pre)) 0); [lia |].
  rewrite Nat2Z.id, list_lookup_middle; reflexivity.
Qed.

Lemma swap_loop_step {T : Type} (i j : Z) (s : list T) :
  swap_loop i j s =
  if i <? j then s' ← swap s i j; swap_loop (i + 1) (j - 1) s' else Returned s.
Proof.
  simp swap_loop.
  destruct (Z_lt_dec i j) as [H | H]; simpl.
  - destruct (Z.ltb_spec i j); [| lia].
    destruct (swap s i j); reflexivity.
  - destruct (Z.ltb_spec i j); [lia | reflexivity].
Qed.

Lemma swap_ends {T : Type} (pre mid post : list T) (a b : T) :
  swap (pre ++ a :: mid ++ b :: post) (len pre) (len pre + len mid + 1)
  = Returned (pre ++ b :: mid ++ a :: post).
Proof.
  unfold swap.
  replace (len pre + len mid + 1) with (len (pre ++ a :: mid)).
  2:{ unfold len. rewrite length_app. simpl. lia. }
  replace (pre ++ a :: mid ++ b :: post) with ((pre ++ a :: mid) ++ b :: post) at 1.
  2:{ rewrite <- app_assoc. reflexivity. }
  rewrite index_middle. simpl.
  rewrite index_middle. simpl.
  f_equal. unfold len. rewrite !Nat2Z.id.
  rewrite (insert_app_r_alt pre (a :: mid ++ b :: post) (length pre)) by lia.
  rewrite Nat.sub_diag. simpl.
  replace (pre ++ b :: mid ++ b :: post) with ((pre ++ b :: mid) ++ b :: post).
  2:{ rewrite <- app_assoc. reflexivity. }
  replace (length (pre ++ a :: mid)) with (length (pre ++ b :: mid)).
  2:{ rewrite !length_app. reflexivity. }
  rewrite (insert_app_r_alt (pre ++ b :: mid) (b :: post)) by lia.
  rewrite Nat.sub_diag. simpl.
  rewrite <- app_assoc. reflexivity.
Qed.

Lemma swap_loop_middle {T : Type} (n : nat) :
  forall pre mid post : list T,
    length mid = n ->
    swap_loop (len pre) (len pre + len mid - 1) (pre ++ mid ++ post)
    = Returned (pre ++ rev mid ++ post).
Proof.
  induction n as [n IH] using lt_wf_ind. intros pre mid post Hn.
  rewrite swap_loop_step.
  destruct mid as [| a mid].
  { change (len (@nil T)) with 0.
    destruct (Z.ltb_spec (len pre) (len pre + 0 - 1)); [lia | reflexivity]. }
  destruct mid as [| b mid _] using rev_ind.
  { change (len [a]) with 1.
    destruct (Z.ltb_spec (len pre) (len pre + 1 - 1)); [lia | reflexivity]. }
  assert (Hlen : len (a :: mid ++ [b]) = len mid + 2).
  { unfold len. simpl. rewrite length_app. simpl. lia. }
  rewrite Hlen.
  destruct (Z.ltb_spec (len pre) (len pre + (len mid + 2) - 1)); [| unfold len in *; lia].
  replace (len pre + (len mid + 2) - 1) with (len pre + len mid + 1) by lia.
  replace (pre ++ (a :: mid ++ [b]) ++ post) with (pre ++ a :: mid ++ b :: post).
  2:{ simpl. rewrite <- app_assoc. reflexivity. }
  rewrite swap_ends. simpl.
  replace (pre ++ b :: mid ++ a :: post) with ((pre ++ [b]) ++ mid ++ (a :: post)).
  2:{ rewrite <- app_assoc. reflexivity. }
  replace (len pre + 1) with (len (pre ++ [b])).
  2:{ unfold len. rewrite length_app. simpl. lia. }
  replace (len pre + len mid + 1 - 1) with (len (pre ++ [b]) + len mid - 1).
  2:{ unfold len. rewrite length_app. simpl. lia. }
  rewrite (IH (length mid)); [| | reflexivity].
  2:{ subst n. simpl. rewrite length_app. simpl. lia. }
  f_equal. simpl. rewrite rev_app_distr. simpl.
  rewrite <- !app_assoc. reflexivity.
Qed.

Lemma swap_loop_rev {T : Type} (s : list T) :
  swap_loop 0 (len s - 1) s = Returned (rev s).
Proof.
  pose proof (swap_loop_middle (length s) [] s [] eq_refl) as H.
  simpl in H. rewrite !app_nil_r in H. exact H.
Qed.

Lemma reverse_rows_map_rev (imgSet : list (list AsciiPixel)) :
  reverse_rows imgSet = Returned (map (@rev AsciiPixel) imgSet).
Proof.
  induction imgSet as [| row rest IH]; [reflexivity |].
  simpl. rewrite swap_loop_rev. simpl. rewrite IH. reflexivity.
Qed.

Lemma reverse_mirror (imgSet : list (list AsciiPixel)) (flipX flipY : bool) :
  reverse imgSet flipX flipY = Returned (mirror flipX flipY imgSet).
Proof.
  unfold reverse, mirror.
  destruct flipX; simpl.
  - rewrite reverse_rows_map_rev. simpl.
    destruct flipY; [rewrite swap_loop_rev |]; reflexivity.
  - destruct flipY; [rewrite swap_loop_rev |]; reflexivity.
Qed.

(** ** The pixel loop builds the grid row by row *)

Lemma fold_append {T U : Type} (f : U -> T) (ks : list U) (init : list T) :
  fold_left (fun acc k => acc ++ [f k]) ks init = init ++ map f ks.
Proof.
  revert init. induction ks as [| k ks IH]; intros init; simpl.
  - rewrite app_nil_r. reflexivity.
  - rewrite IH, <- app_assoc. reflexivity.
Qed.

Lemma length_range (lo hi : Z) : length (range lo hi) = Z.to_nat (hi - lo).
Proof. unfold range. rewrite length_map, length_seq. reflexivity. Qed.

Lemma sample_rows (smallImg : image.NRGBA) :
  sample smallImg =
  map (fun y =>
         map (fun x => asciiPixel (At smallImg x y))
             (range (X (Min (Bounds smallImg))) (X (Max (Bounds smallImg)))))
      (range (Y (Min (Bounds smallImg))) (Y (Max (Bounds smallImg)))).
Proof.
  unfold sample, for_range. cbv zeta.
  rewrite (fold_append
             (fun y => fold_left
                         (fun temp x => temp ++ [asciiPixel (At smallImg x y)])
                         (range (X (Min (Bounds smallImg))) (X (Max (Bounds smallImg)))) [])).
  simpl. apply map_ext. intros y. rewrite fold_append. reflexivity.
Qed.

Lemma lookup_range (lo hi : Z) (k : nat) :
  (k < Z.to_nat (hi - lo))%nat -> range lo hi !! k = Some (lo + Z.of_nat k).
Proof.
  intros Hk. unfold range.
  change (map ?f ?l) with (f <$> l).
  rewrite list_lookup_fmap, lookup_seq_lt by exact Hk. reflexivity.
Qed.

Lemma sample_cell (smallImg : image.NRGBA) (i j : nat) :
  (i < Z.to_nat (Y (Max (Bounds smallImg)) - Y (Min (Bounds smallImg))))%nat ->
  (j < Z.to_nat (X (Max (Bounds smallImg)) - X (Min (Bounds smallImg))))%nat ->
  sample smallImg !! i ≫= (fun row => row !! j)
  = Some (asciiPixel (At smallImg (X (Min (Bounds smallImg)) + Z.of_nat j)
                                  (Y (Min (Bounds smallImg)) + Z.of_nat i))).
Proof.
  intros Hi Hj. rewrite sample_rows.
  change (map ?f ?l) with (f <$> l).
  rewrite list_lookup_fmap, lookup_range by exact Hi. simpl.
  change (map ?f ?l) with (f <$> l).
  rewrite list_lookup_fmap, lookup_range by exact Hj. reflexivity.
Qed.

(** ** Channels of [color.NRGBA] and [color.Gray] *)

Lemma of_uint8_range (b : byte) : 0 <= GoInt.of_uint8 b <= 255.
Proof.
  unfold GoInt.of_uint8. pose proof (Byte.to_N_bounded b). lia.
Qed.

Lemma lor_shift8 (b : byte) :
  Z.lor (GoInt.of_uint8 b) (GoInt.u32 (Z.shiftl (GoInt.of_uint8 b) 8))
  = 257 * GoInt.of_uint8 b.
Proof. destruct b; vm_compute; reflexivity. Qed.

Lemma premul_value (c a : byte) :
  color.premul c a = 257 * GoInt.of_uint8 c * GoInt.of_uint8 a / 255.
Proof.
  unfold color.premul. rewrite lor_shift8.
  pose proof (of_uint8_range c). pose proof (of_uint8_range a).
  unfold GoInt.u32. rewrite Z.mod_small; [reflexivity |].
  split; [nia |].
  apply Z.le_lt_trans with (257 * 255 * 255); [nia | reflexivity].
Qed.

Lemma premul_range (c a : byte) : 0 <= color.premul c a <= 65535.
Proof.
  rewrite premul_value.
  pose proof (of_uint8_range c). pose proof (of_uint8_range a).
  split.
  - apply Z.div_pos; nia.
  - apply Z.div_le_upper_bound; nia.
Qed.

Lemma Gray_RGBA_value (c : color.Gray) :
  color.Gray_RGBA c =
  (257 * GoInt.of_uint8 (color.Y c), 257 * GoInt.of_uint8 (color.Y c),
   257 * GoInt.of_uint8 (color.Y c), 65535).
Proof. unfold color.Gray_RGBA. rewrite lor_shift8. reflexivity. Qed.

Lemma scaled_range (r : Z) : 0 <= r <= 65535 -> 0 <= r / 257 <= 255.
Proof.
  intros H. split.
  - apply Z.div_pos; lia.
  - apply Z.div_le_upper_bound; lia.
Qed.

Lemma u32_small (z : Z) : 0 <= z <= 65535 -> GoInt.u32 z = z.
Proof. intros H. unfold GoInt.u32. apply Z.mod_small. lia. Qed.

(** ** [ConvertToAsciiPixels] as resolver, width check, pixel loop and mirror *)

Lemma ConvertToAsciiPixels_steps {Image : Type} (Resize : Image -> Z -> Z -> image.NRGBA)
    (tw th : Z) (img : Image) (dimensions : list Z) (width height : Z)
    (flipX flipY full isBraille : bool) :
  ConvertToAsciiPixels Resize (tw, th, None) img dimensions width height
                       flipX flipY full isBraille
  = r ← resolve Resize img dimensions width height full isBraille tw th;
    _ ← checkDimensions dimensions full tw;
    Returned (mirror flipX flipY (sample (snd r))).
Proof.
  unfold ConvertToAsciiPixels.
  destruct (resolve Resize img dimensions width height full isBraille tw th)
    as [[[w h] smallImg] | err |]; simpl; try reflexivity.
  destruct (checkDimensions dimensions full tw) as [[] | err |]; simpl; try reflexivity.
  destruct flipX, flipY; simpl; try rewrite reverse_mirror; reflexivity.
Qed.

Lemma length_mirror (flipX flipY : bool) (imgSet : list (list AsciiPixel)) :
  length (mirror flipX flipY imgSet) = length imgSet.
Proof.
  unfold mirror. destruct flipX, flipY; simpl;
    rewrite ?length_rev, ?length_map; reflexivity.
Qed.

Lemma Forall_length_mirror (n : nat) (flipX flipY : bool) (imgSet : list (list AsciiPixel)) :
  Forall (fun row => length row = n) imgSet ->
  Forall (fun row => length row = n) (mirror flipX flipY imgSet).
Proof.
  intros H. unfold mirror.
  assert (Hx : Forall (fun row => length row = n)
                 (if flipX then map (@rev AsciiPixel) imgSet else imgSet)).
  { destruct flipX; [| exact H].
    rewrite Forall_map. eapply Forall_impl; [exact H |].
    intros row Hrow. simpl. rewrite length_rev. exact Hrow. }
  destruct flipY; [| exact Hx].
  apply Forall_rev. exact Hx.
Qed.

Lemma sample_rectangular (smallImg : image.NRGBA) :
  length (sample smallImg)
  = Z.to_nat (Y (Max (Bounds smallImg)) - Y (Min (Bounds smallImg))) /\
  Forall (fun row => length row
                     = Z.to_nat (X (Max (Bounds smallImg)) - X (Min (Bounds smallImg))))
         (sample smallImg).
Proof.
  rewrite sample_rows. split.
  - rewrite length_map, length_range. reflexivity.
  - rewrite Forall_map. apply Forall_forall. intros y _. simpl.
    rewrite length_map, length_range. reflexivity.
Qed.

Lemma asciiPixel_black (c : color.NRGBA) :
  color.R c = Byte.x00 -> color.G c = Byte.x00 -> color.B c = Byte.x00 ->
  asciiPixel c = zeroPixel.
Proof.
  destruct c as [r g b a]. simpl. intros -> -> ->.
  destruct a; vm_compute; reflexivity.
Qed.

(** C9: the two mirror operations of [reverse] are involutions and
    commute.  Mirroring the columns twice, or the rows twice, gives the
    grid back; mirroring columns then rows is mirroring rows then columns,
    and both are what [reverse] does with the two flags set at once.  No
    run of [reverse] panics. *)
Theorem mirror_involutive_commutes (imgSet : list (list AsciiPixel)) :
  (g ← reverse imgSet true false; reverse g true false) = Returned imgSet /\
  (g ← reverse imgSet false true; reverse g false true) = Returned imgSet /\
  (g ← reverse imgSet true false; reverse g false true)
  = (g ← reverse imgSet false true; reverse g true false) /\
  (g ← reverse imgSet true false; reverse g false true) = reverse imgSet true true.
Proof.
  rewrite !reverse_mirror. simpl. rewrite !reverse_mirror. unfold mirror.
  repeat split.
  - f_equal. rewrite map_map. rewrite <- (map_id imgSet) at 2.
    apply map_ext. intros row. apply rev_involutive.
  - f_equal. apply rev_involutive.
  - f_equal. symmetry. apply map_rev.
Qed.

(** C10: every grid [ConvertToAsciiPixels] returns is rectangular.  It has
    one row per row of the resized image and every row has one
    [AsciiPixel] per column of the resized image; [reverse], with either or
    both flips, returns a grid with the same number of rows and, when
    every row had [n] cells, every row still has [n]. *)
Theorem grid_rectangular {Image : Type} (Resize : Image -> Z -> Z -> image.NRGBA)
    (tw th : Z) (img : Image) (dimensions : list Z) (width height : Z)
    (flipX flipY full isBraille : bool) (grid : list (list AsciiPixel)) :
  ConvertToAsciiPixels Resize (tw, th, None) img dimensions width height
                       flipX flipY full isBraille = Returned grid ->
  (exists asciiWidth asciiHeight smallImg,
     resolve Resize img dimensions width height full isBraille tw th
     = Returned (asciiWidth, asciiHeight, smallImg) /\
     length grid = Z.to_nat (Y (Max (Bounds smallImg)) - Y (Min (Bounds smallImg))) /\
     Forall (fun row => length row
                        = Z.to_nat (X (Max (Bounds smallImg)) - X (Min (Bounds smallImg))))
            grid) /\
  (forall (imgSet : list (list AsciiPixel)) (fx fy : bool),
     exists imgSet', reverse imgSet fx fy = Returned imgSet' /\
       length imgSet' = length imgSet /\
       forall n, Forall (fun row => length row = n) imgSet ->
                 Forall (fun row => length row = n) imgSet').
Proof.
  intros Hgrid. split.
  - rewrite ConvertToAsciiPixels_steps in Hgrid.
    destruct (resolve Resize img dimensions width height full isBraille tw th)
      as [[[w h] smallImg] | err |]; simpl in Hgrid; try discriminate.
    destruct (checkDimensions dimensions full tw) as [[] | err |];
      simpl in Hgrid; try discriminate.
    injection Hgrid as <-.
    exists w, h, smallImg. split; [reflexivity |].
    destruct (sample_rectangular smallImg) as [Hrows Hcols].
    split.
    + rewrite length_mirror. exact Hrows.
    + apply Forall_length_mirror. exact Hcols.
  - intros imgSet fx fy. exists (mirror fx fy imgSet).
    split; [apply reverse_mirror |].
    split; [apply length_mirror |].
    intros n. apply Forall_length_mirror.
Qed.

(** ** The resolver, mode by mode *)

Lemma sub_one (tw : Z) : 0 < tw <= GoInt.max_int -> GoInt.sub tw 1 = tw - 1.
Proof.
  intros H. unfold GoInt.sub. apply wrap_in_range.
  unfold GoInt.min_int, GoInt.max_int in *. lia.
Qed.

Lemma cellScale_braille (w h : Z) :
  - 2 ^ 62 <= w < 2 ^ 62 -> - 2 ^ 61 <= h < 2 ^ 61 ->
  cellScale true w h = (2 * w, 4 * h).
Proof.
  intros Hw Hh. unfold cellScale, resizeForBraille, GoInt.mul.
  rewrite !wrap_in_range; unfold GoInt.min_int, GoInt.max_int; try lia.
  f_equal; lia.
Qed.

Lemma quot2_range (h : Z) : 0 <= h < 2 ^ 53 -> 0 <= h ÷ 2 < 2 ^ 53.
Proof.
  intros H. rewrite Z.quot_div_nonneg by lia.
  split; [apply Z.div_pos; lia |].
  apply Z.div_lt_upper_bound; lia.
Qed.

Lemma checkDimensions_full (dimensions : list Z) (tw : Z) :
  checkDimensions dimensions true tw = Returned tt.
Proof. unfold checkDimensions. rewrite andb_false_r. reflexivity. Qed.

(** [ByWidth] does clamp: with a probe of non-negative height the height
    it derives is at least [1]. *)
Lemma widthSize_height_positive {Image : Type} (Resize : Image -> Z -> Z -> image.NRGBA)
    (img : Image) (width : Z) :
  0 <= Dy (Resize img width 0) < 2 ^ 53 ->
  1 <= snd (widthSize Resize img width).
Proof.
  intros H. unfold widthSize. cbv zeta. simpl.
  rewrite int_of_half_float64 by lia.
  pose proof (quot2_range _ H).
  destruct (Z.eqb_spec (Dy (Resize img width 0) ÷ 2) 0); lia.
Qed.

(** C1: an [Auto] request (no dimensions, no width, no height, not full)
    on a surface of positive size.  The height is the surface height less
    one and the width twice the width of the probe resized to that height;
    when that width reaches the surface width, the width is the surface
    width less one and the height half (truncated) the height of the probe
    resized to that width.  In both cases the call returns a grid, the
    pixels of the final resize. *)
Theorem auto_request {Image : Type} (Resize : Image -> Z -> Z -> image.NRGBA)
    (img : Image) (tw th : Z) (flipX flipY isBraille : bool) :
  0 < tw <= GoInt.max_int -> 0 < th <= GoInt.max_int ->
  let probe := Resize img 0 (th - 1) in
  let fallback := Resize img (tw - 1) 0 in
  0 <= Dx probe < 2 ^ 53 ->
  (tw <= 2 * Dx probe -> 0 <= Dy fallback < 2 ^ 53) ->
  let wh := if tw <=? 2 * Dx probe
            then (tw - 1, Dy fallback ÷ 2)
            else (2 * Dx probe, th - 1) in
  size Resize img [] 0 0 false tw th = Returned wh /\
  resolve Resize img [] 0 0 false isBraille tw th
  = Returned (finish Resize img isBraille (fst wh) (snd wh)) /\
  ConvertToAsciiPixels Resize (tw, th, None) img [] 0 0 flipX flipY false isBraille
  = Returned (mirror flipX flipY
                (sample (snd (finish Resize img isBraille (fst wh) (snd wh))))).
Proof.
  intros Htw Hth probe fallback Hprobe Hfallback wh.
  assert (Hsize : size Resize img [] 0 0 false tw th = Returned wh).
  { unfold size, autoSize. simpl. cbv zeta.
    rewrite (sub_one th Hth), (sub_one tw Htw).
    fold probe. rewrite int_of_twice_float64 by lia.
    rewrite Z.geb_leb. subst wh.
    destruct (Z.leb_spec tw (2 * Dx probe)) as [Hge | Hlt]; [| reflexivity].
    fold fallback. rewrite int_of_half_float64 by (specialize (Hfallback Hge); lia).
    reflexivity. }
  assert (Hres : resolve Resize img [] 0 0 false isBraille tw th
                 = Returned (finish Resize img isBraille (fst wh) (snd wh))).
  { unfold resolve. rewrite Hsize. destruct wh. reflexivity. }
  split; [exact Hsize |]. split; [exact Hres |].
  rewrite ConvertToAsciiPixels_steps, Hres. reflexivity.
Qed.

(** C2: a [ByWidth] request (width not 0, height 0, no dimensions, not
    full) on a surface of positive width.  When the width is at most the
    surface width less one the call returns a grid, the pixels of the
    final resize to that width; when it is larger the call fails with the
    constraint message and no grid. *)
Theorem by_width_request {Image : Type} (Resize : Image -> Z -> Z -> image.NRGBA)
    (img : Image) (w tw th : Z) (flipX flipY isBraille : bool) :
  0 < tw <= GoInt.max_int -> w <> 0 ->
  (w <= tw - 1 ->
   ConvertToAsciiPixels Resize (tw, th, None) img [] w 0 flipX flipY false isBraille
   = Returned (mirror flipX flipY
                 (sample (snd (finish Resize img isBraille
                                 w (snd (widthSize Resize img w))))))) /\
  (w > tw - 1 ->
   ConvertToAsciiPixels Resize (tw, th, None) img [] w 0 flipX flipY false isBraille
   = Failed errSetWidth).
Proof.
  intros Htw Hw.
  assert (Hmode : (negb (w =? 0) || negb (0 =? 0)) && (len (@nil Z) =? 0) = true).
  { destruct (Z.eqb_spec w 0); [contradiction | reflexivity]. }
  split; intros Hle; rewrite ConvertToAsciiPixels_steps;
    unfold resolve, size; simpl negb at 1; cbv iota; rewrite Hmode;
    unfold axisSize; rewrite (sub_one tw Htw), Z.gtb_ltb.
  - destruct (Z.ltb_spec (tw - 1) w); [lia |].
    destruct (Z.eqb_spec w 0); [contradiction |]. simpl.
    unfold widthSize. reflexivity.
  - destruct (Z.ltb_spec (tw - 1) w); [reflexivity | lia].
Qed.

(** C3 (as amended): a [Fill] request ([full] set, whatever the other
    sizing inputs).  The width is the surface width less one and the
    height is half the height of the aspect-preserving probe at that
    width, truncated toward zero; with the braille cell unit the pair is
    scaled by 2 and 4 before the final resize, which so targets twice the
    width and four times the height. *)
Theorem fill_request {Image : Type} (Resize : Image -> Z -> Z -> image.NRGBA)
    (img : Image) (dimensions : list Z) (width height tw th : Z)
    (flipX flipY : bool) :
  0 < tw < 2 ^ 62 ->
  let probe := Resize img (tw - 1) 0 in
  0 <= Dy probe < 2 ^ 53 ->
  let asciiWidth := tw - 1 in
  let asciiHeight := Dy probe ÷ 2 in
  size Resize img dimensions width height true tw th
  = Returned (asciiWidth, asciiHeight) /\
  resolve Resize img dimensions width height true false tw th
  = Returned (asciiWidth, asciiHeight, Resize img asciiWidth asciiHeight) /\
  resolve Resize img dimensions width height true true tw th
  = Returned (2 * asciiWidth, 4 * asciiHeight,
              Resize img (2 * asciiWidth) (4 * asciiHeight)) /\
  ConvertToAsciiPixels Resize (tw, th, None) img dimensions width height
                       flipX flipY true false
  = Returned (mirror flipX flipY (sample (Resize img asciiWidth asciiHeight))) /\
  ConvertToAsciiPixels Resize (tw, th, None) img dimensions width height
                       flipX flipY true true
  = Returned (mirror flipX flipY
                (sample (Resize img (2 * asciiWidth) (4 * asciiHeight)))).
Proof.
  intros Htw probe Hprobe asciiWidth asciiHeight.
  assert (Htw' : 0 < tw <= GoInt.max_int) by (unfold GoInt.max_int; lia).
  assert (Hsize : size Resize img dimensions width height true tw th
                  = Returned (asciiWidth, asciiHeight)).
  { unfold size, fullSize. cbv zeta. rewrite (sub_one tw Htw').
    fold probe. rewrite int_of_half_float64 by lia. reflexivity. }
  assert (Hplain : resolve Resize img dimensions width height true false tw th
                   = Returned (asciiWidth, asciiHeight, Resize img asciiWidth asciiHeight)).
  { unfold resolve. rewrite Hsize. reflexivity. }
  assert (Hbraille : resolve Resize img dimensions width height true true tw th
                     = Returned (2 * asciiWidth, 4 * asciiHeight,
                                 Resize img (2 * asciiWidth) (4 * asciiHeight))).
  { unfold resolve. rewrite Hsize. simpl. unfold finish.
    pose proof (quot2_range _ Hprobe).
    rewrite cellScale_braille; [reflexivity | subst asciiWidth; lia |].
    subst asciiHeight. fold probe in H. lia. }
  repeat split; try assumption.
  - rewrite ConvertToAsciiPixels_steps, Hplain, checkDimensions_full. reflexivity.
  - rewrite ConvertToAsciiPixels_steps, Hbraille, checkDimensions_full. reflexivity.
Qed.

(** C5 (as amended): with both [width] and [height] set, no dimensions
    and [full] unset, the call always fails and returns no grid: with the
    message that both cannot be set when the width is at most the surface
    width less one, and with the constraint message on the width when it
    is larger. *)
Theorem both_axes_request {Image : Type} (Resize : Image -> Z -> Z -> image.NRGBA)
    (img : Image) (width height tw th : Z) (flipX flipY isBraille : bool) :
  0 < tw <= GoInt.max_int -> width <> 0 -> height <> 0 ->
  ConvertToAsciiPixels Resize (tw, th, None) img [] width height
                       flipX flipY false isBraille
  = Failed (if width <=? tw - 1 then errBoth else errSetWidth).
Proof.
  intros Htw Hw Hh.
  rewrite ConvertToAsciiPixels_steps. unfold resolve, size, axisSize.
  rewrite (sub_one tw Htw), Z.gtb_ltb.
  destruct (Z.eqb_spec width 0); [contradiction |].
  destruct (Z.eqb_spec height 0); [contradiction |]. simpl.
  destruct (Z.ltb_spec (tw - 1) width), (Z.leb_spec width (tw - 1));
    try lia; reflexivity.
Qed.

Lemma index_never_fails {T : Type} (s : list T) (i : Z) (err : error) :
  index s i <> Failed err.
Proof.
  unfold index. destruct (i <? 0); [discriminate |].
  destruct (s !! Z.to_nat i); discriminate.
Qed.

Lemma contains_numeral (c : Ascii.ascii) (rest hay : string) :
  numeral_char c = true -> has_numeral hay = false ->
  contains (String c rest) hay = false.
Proof.
  intros Hc. induction hay as [| b hay IH]; intros Hhay; [reflexivity |].
  simpl in Hhay. apply orb_false_elim in Hhay as [Hb Hrest].
  simpl. destruct (Ascii.ascii_dec c b) as [-> | _].
  - congruence.
  - simpl. fold (contains (String c rest) hay). apply IH. exact Hrest.
Qed.

Lemma numeral_head (v : Z) :
  exists c rest, NilZero.string_of_int (Z.to_int v) = String c rest /\
                 numeral_char c = true.
Proof.
  destruct (Z.to_int v) as [u | u]; simpl.
  - destruct u; simpl; eexists _, _; split; reflexivity.
  - eexists _, _; split; reflexivity.
Qed.

Lemma names_no_value (msg : error) (v : Z) :
  has_numeral msg = false -> names_value msg v = false.
Proof.
  intros H. unfold names_value.
  destruct (numeral_head v) as (c & rest & -> & Hc).
  apply contains_numeral; assumption.
Qed.

(** C6 (as amended): every error [ConvertToAsciiPixels] builds is one of
    three fixed messages, none of which holds a digit or a sign, so no message
    names a value; a [ByWidth] request above the surface width less one
    fails with the fixed message on the set width, and a [ByHeight]
    request whose derived width is too large with the fixed message on
    the calculated width. *)
Theorem error_messages_fixed {Image : Type} (Resize : Image -> Z -> Z -> image.NRGBA)
    (img : Image) (dimensions : list Z) (width height tw th : Z)
    (flipX flipY full isBraille : bool) (err : error) :
  ConvertToAsciiPixels Resize (tw, th, None) img dimensions width height
                       flipX flipY full isBraille = Failed err ->
  (err = errSetWidth \/ err = errCalcWidth \/ err = errBoth) /\
  has_numeral err = false /\
  (forall v : Z, names_value err v = false).
Proof.
  intros Hfail.
  assert (Hmsg : err = errSetWidth \/ err = errCalcWidth \/ err = errBoth).
  { rewrite ConvertToAsciiPixels_steps in Hfail.
    destruct (resolve Resize img dimensions width height full isBraille tw th)
      as [r | e |] eqn:Hres; simpl in Hfail; try discriminate.
    - unfold checkDimensions in Hfail.
      destruct ((len dimensions >? 0) && negb full); simpl in Hfail; try discriminate.
      destruct (index dimensions 0) as [d | e |] eqn:Hidx; simpl in Hfail;
        try discriminate.
      + destruct (d >? GoInt.sub tw 1); simpl in Hfail; try discriminate.
        injection Hfail as <-. left. reflexivity.
      + exfalso. exact (index_never_fails _ _ _ Hidx).
    - injection Hfail as <-.
      unfold resolve in Hres.
      destruct (size Resize img dimensions width height full tw th)
        as [[w h] | e' |] eqn:Hsize; simpl in Hres; try discriminate.
      injection Hres as <-.
      unfold size in Hsize.
      destruct full; [discriminate |].
      destruct ((negb (width =? 0) || negb (height =? 0)) && (len dimensions =? 0)).
      + unfold axisSize in Hsize.
        destruct (width >? GoInt.sub tw 1).
        { injection Hsize as <-. left. reflexivity. }
        destruct (negb (width =? 0) && (height =? 0)); [discriminate |].
        destruct (negb (height =? 0) && (width =? 0)).
        * unfold heightSize in Hsize. cbv zeta in Hsize.
          destruct (_ >? _); [| discriminate].
          injection Hsize as <-. right. left. reflexivity.
        * injection Hsize as <-. right. right. reflexivity.
      + destruct (len dimensions =? 0); [discriminate |].
        unfold givenSize in Hsize.
        destruct (index dimensions 0) eqn:Hidx0; simpl in Hsize; try discriminate.
        * destruct (index dimensions 1) eqn:Hidx1; simpl in Hsize; try discriminate.
          exfalso. exact (index_never_fails _ _ _ Hidx1).
        * exfalso. exact (index_never_fails _ _ _ Hidx0). }
  assert (Hnum : has_numeral err = false).
  { destruct Hmsg as [-> | [-> | ->]]; reflexivity. }
  split; [exact Hmsg |]. split; [exact Hnum |].
  intros v. apply names_no_value. exact Hnum.
Qed.

(** C7 (as amended): an [Explicit] request whose dimensions hold at least
    two entries, [full] unset, on a surface of positive width.  The first
    two entries are the width and the height as they are, whatever
    [width] and [height] say and with no aspect-ratio correction; the call
    fails, with the constraint message and no grid, whenever the first
    entry exceeds the surface width less one, and returns the pixels of
    the final resize otherwise. *)
Theorem explicit_request {Image : Type} (Resize : Image -> Z -> Z -> image.NRGBA)
    (img : Image) (w h : Z) (rest : list Z) (width height tw th : Z)
    (flipX flipY isBraille : bool) :
  0 < tw <= GoInt.max_int ->
  let dimensions := w :: h :: rest in
  size Resize img dimensions width height false tw th = Returned (w, h) /\
  resolve Resize img dimensions width height false isBraille tw th
  = Returned (finish Resize img isBraille w h) /\
  (w > tw - 1 ->
   ConvertToAsciiPixels Resize (tw, th, None) img dimensions width height
                        flipX flipY false isBraille
   = Failed errSetWidth) /\
  (w <= tw - 1 ->
   ConvertToAsciiPixels Resize (tw, th, None) img dimensions width height
                        flipX flipY false isBraille
   = Returned (mirror flipX flipY (sample (snd (finish Resize img isBraille w h))))).
Proof.
  intros Htw dimensions.
  assert (Hlen : (len dimensions =? 0) = false).
  { apply Z.eqb_neq. unfold len, dimensions. simpl length. lia. }
  assert (Hsize : size Resize img dimensions width height false tw th = Returned (w, h)).
  { unfold size. rewrite Hlen, andb_false_r. reflexivity. }
  assert (Hres : resolve Resize img dimensions width height false isBraille tw th
                 = Returned (finish Resize img isBraille w h)).
  { unfold resolve. rewrite Hsize. reflexivity. }
  assert (Hcheck : checkDimensions dimensions false tw
                   = if w >? tw - 1 then Failed errSetWidth else Returned tt).
  { unfold checkDimensions. rewrite (sub_one tw Htw).
    replace (len dimensions >? 0) with true; [reflexivity |].
    symmetry. rewrite Z.gtb_ltb. apply Z.ltb_lt.
    unfold len, dimensions. simpl length. lia. }
  split; [exact Hsize |]. split; [exact Hres |].
  split; intros Hw; rewrite ConvertToAsciiPixels_steps, Hres; simpl;
    rewrite Hcheck, Z.gtb_ltb.
  - destruct (Z.ltb_spec (tw - 1) w); [reflexivity | lia].
  - destruct (Z.ltb_spec (tw - 1) w); [lia | reflexivity].
Qed.

Lemma asciiPixel_by_channels (oldPixel : color.NRGBA) (r1 g1 b1 a1 r2 g2 b2 a2 : Z) :
  color.Gray_RGBA (color.grayModel oldPixel) = (r1, g1, b1, a1) ->
  color.NRGBA_RGBA oldPixel = (r2, g2, b2, a2) ->
  (0 <= r1 <= 65535 /\ g1 = r1 /\ b1 = r1) /\
  (0 <= r2 <= 65535 /\ 0 <= g2 <= 65535 /\ 0 <= b2 <= 65535) /\
  asciiPixel oldPixel
  = {| charDepth := r1 ÷ 257;
       grayscaleValue := (r1 ÷ 257, g1 ÷ 257, b1 ÷ 257);
       rgbValue := (r2 ÷ 257, g2 ÷ 257, b2 ÷ 257) |} /\
  eight_bit_pixel (asciiPixel oldPixel).
Proof.
  intros Hgray Hrgb.
  rewrite Gray_RGBA_value in Hgray.
  pose proof (of_uint8_range (color.Y (color.grayModel oldPixel))) as Hy.
  pose proof (premul_range (color.R oldPixel) (color.A oldPixel)) as Hr.
  pose proof (premul_range (color.G oldPixel) (color.A oldPixel)) as Hg.
  pose proof (premul_range (color.B oldPixel) (color.A oldPixel)) as Hb.
  assert (Hpix : asciiPixel oldPixel
                 = {| charDepth := r1 / 257;
                      grayscaleValue := (r1 / 257, g1 / 257, b1 / 257);
                      rgbValue := (r2 / 257, g2 / 257, b2 / 257) |}).
  { unfold asciiPixel. rewrite Gray_RGBA_value, Hrgb.
    remember (GoInt.of_uint8 (color.Y (color.grayModel oldPixel))) as y eqn:Ey.
    unfold color.NRGBA_RGBA in Hrgb.
    injection Hgray as <- <- <- <-. injection Hrgb as <- <- <- <-. cbv zeta.
    rewrite !u32_small; [reflexivity | ..];
      match goal with
      | |- 0 <= ?r / 257 <= 65535 => pose proof (scaled_range r ltac:(lia)); lia
      end. }
  remember (GoInt.of_uint8 (color.Y (color.grayModel oldPixel))) as y eqn:Ey.
  unfold color.NRGBA_RGBA in Hrgb.
  injection Hgray as Hr1 Hg1 Hb1 _. injection Hrgb as Hr2 Hg2 Hb2 _.
  assert (H1 : 0 <= r1 <= 65535 /\ g1 = r1 /\ b1 = r1) by lia.
  assert (H2 : 0 <= r2 <= 65535 /\ 0 <= g2 <= 65535 /\ 0 <= b2 <= 65535) by lia.
  split; [exact H1 |]. split; [exact H2 |]. split.
  - rewrite Hpix. rewrite !Z.quot_div_nonneg by lia. reflexivity.
  - rewrite Hpix. unfold eight_bit_pixel, eight_bit. simpl.
    pose proof (scaled_range r1). pose proof (scaled_range g1).
    pose proof (scaled_range b1). pose proof (scaled_range r2).
    pose proof (scaled_range g2). pose proof (scaled_range b2). lia.
Qed.

(** C8: the sampler, pixel by pixel.  For every pixel of the resized
    image, at column [j] and row [i] from the minimum corner of its
    bounds, the cell at row [i] and column [j] of the sampled grid holds
    the 16-bit channels of that pixel and of its grayscale conversion,
    each divided by 257 and truncated: the intensity is the red channel of
    the grayscale conversion (whose three channels are equal), the
    grayscale triple its three channels, the colour triple the three
    channels of the pixel itself.  The 16-bit channels lie in 0..65535 and
    every field of every cell of the grid lies in 0..255.  Without
    mirroring the call returns that grid as it is.  A fully black image of
    two rows and two columns gives two rows of two cells, all of them
    zero. *)
Theorem sampler_channels :
  (forall (smallImg : image.NRGBA) (i j : nat) (r1 g1 b1 a1 r2 g2 b2 a2 : Z),
     let oldPixel := At smallImg (X (Min (Bounds smallImg)) + Z.of_nat j)
                                 (Y (Min (Bounds smallImg)) + Z.of_nat i) in
     (i < Z.to_nat (Y (Max (Bounds smallImg)) - Y (Min (Bounds smallImg))))%nat ->
     (j < Z.to_nat (X (Max (Bounds smallImg)) - X (Min (Bounds smallImg))))%nat ->
     color.Gray_RGBA (color.grayModel oldPixel) = (r1, g1, b1, a1) ->
     color.NRGBA_RGBA oldPixel = (r2, g2, b2, a2) ->
     (0 <= r1 <= 65535 /\ g1 = r1 /\ b1 = r1) /\
     (0 <= r2 <= 65535 /\ 0 <= g2 <= 65535 /\ 0 <= b2 <= 65535) /\
     sample smallImg !! i ≫= (fun row => row !! j)
     = Some {| charDepth := r1 ÷ 257;
               grayscaleValue := (r1 ÷ 257, g1 ÷ 257, b1 ÷ 257);
               rgbValue := (r2 ÷ 257, g2 ÷ 257, b2 ÷ 257) |}) /\
  (forall smallImg : image.NRGBA,
     Forall (Forall eight_bit_pixel) (sample smallImg)) /\
  (forall (Image : Type) (Resize : Image -> Z -> Z -> image.NRGBA)
          (tw th : Z) (img : Image) (dimensions : list Z) (width height : Z)
          (full isBraille : bool) (asciiWidth asciiHeight : Z)
          (smallImg : image.NRGBA) (grid : list (list AsciiPixel)),
     resolve Resize img dimensions width height full isBraille tw th
     = Returned (asciiWidth, asciiHeight, smallImg) ->
     ConvertToAsciiPixels Resize (tw, th, None) img dimensions width height
                          false false full isBraille = Returned grid ->
     grid = sample smallImg) /\
  (forall (oldPixel : color.NRGBA) (r1 g1 b1 a1 r2 g2 b2 a2 : Z),
     color.Gray_RGBA (color.grayModel oldPixel) = (r1, g1, b1, a1) ->
     color.NRGBA_RGBA oldPixel = (r2, g2, b2, a2) ->
     (0 <= r1 <= 65535 /\ g1 = r1 /\ b1 = r1) /\
     (0 <= r2 <= 65535 /\ 0 <= g2 <= 65535 /\ 0 <= b2 <= 65535) /\
     asciiPixel oldPixel
     = {| charDepth := r1 ÷ 257;
          grayscaleValue := (r1 ÷ 257, g1 ÷ 257, b1 ÷ 257);
          rgbValue := (r2 ÷ 257, g2 ÷ 257, b2 ÷ 257) |} /\
     eight_bit_pixel (asciiPixel oldPixel)) /\
  (forall (smallImg : image.NRGBA) (x0 y0 : Z),
     Bounds smallImg = {| Min := {| X := x0; Y := y0 |};
                          Max := {| X := x0 + 2; Y := y0 + 2 |} |} ->
     fully_black smallImg ->
     sample smallImg = [[zeroPixel; zeroPixel]; [zeroPixel; zeroPixel]]).
Proof.
  split; [| split; [| split; [| split]]].
  - intros smallImg i j r1 g1 b1 a1 r2 g2 b2 a2 oldPixel Hi Hj Hgray Hrgb.
    destruct (asciiPixel_by_channels oldPixel _ _ _ _ _ _ _ _ Hgray Hrgb)
      as (H1 & H2 & Hpix & _).
    split; [exact H1 |]. split; [exact H2 |].
    rewrite (sample_cell smallImg i j Hi Hj). fold oldPixel.
    rewrite Hpix. reflexivity.
  - intros smallImg. rewrite sample_rows.
    rewrite Forall_map. apply Forall_forall. intros y _. simpl.
    rewrite Forall_map. apply Forall_forall. intros x _. simpl.
    destruct (color.Gray_RGBA (color.grayModel (At smallImg x y)))
      as [[[r1 g1] b1] a1] eqn:Hgray.
    destruct (color.NRGBA_RGBA (At smallImg x y)) as [[[r2 g2] b2] a2] eqn:Hrgb.
    exact (proj2 (proj2 (proj2 (asciiPixel_by_channels _ _ _ _ _ _ _ _ _ Hgray Hrgb)))).
  - intros Image Resize tw th img dimensions width height full isBraille
           asciiWidth asciiHeight smallImg grid Hres Hgrid.
    rewrite ConvertToAsciiPixels_steps, Hres in Hgrid. simpl in Hgrid.
    destruct (checkDimensions dimensions full tw) as [[] | err |];
      simpl in Hgrid; try discriminate.
    injection Hgrid as <-. reflexivity.
  - exact asciiPixel_by_channels.
  - intros smallImg x0 y0 Hbounds Hblack.
    rewrite sample_rows, Hbounds. simpl X. simpl Y.
    unfold range.
    replace (x0 + 2 - x0) with 2 by lia. replace (y0 + 2 - y0) with 2 by lia.
    simpl.
    assert (Hcell : forall dx dy, 0 <= dx < 2 -> 0 <= dy < 2 ->
                      asciiPixel (At smallImg (x0 + dx) (y0 + dy)) = zeroPixel).
    { intros dx dy Hdx Hdy.
      destruct (Hblack (x0 + dx) (y0 + dy)) as (Hr & Hg & Hb).
      - rewrite Hbounds. unfold In. simpl.
        repeat (apply andb_true_intro; split);
          first [apply Z.leb_le | apply Z.ltb_lt]; lia.
      - apply asciiPixel_black; assumption. }
    rewrite !Hcell by lia. reflexivity.
Qed.

(** C4: only [ByWidth] clamps a derived height of 0.  On a source of 400
    by 2 pixels and a surface of 80 by 24, [Fill] and the fallback of
    [Auto] both derive the height 0 and keep it, so the final resize is
    asked for height 0 (and still 0 after braille scaling) and falls back
    on the aspect ratio: one row.  [ByWidth] at the same width derives 0
    and clamps it to 1, four rows after braille scaling. *)
Theorem height_clamp_only_by_width :
  let img := plain 400 2 in
  Dy (refResize img 79 0) = 1 /\
  size refResize img [] 0 0 true 80 24 = Returned (79, 0) /\
  size refResize img [] 0 0 false 80 24 = Returned (79, 0) /\
  size refResize img [] 79 0 false 80 24 = Returned (79, 1) /\
  resolve refResize img [] 0 0 true true 80 24
  = Returned (158, 0, refResize img 158 0) /\
  resolve refResize img [] 0 0 false true 80 24
  = Returned (158, 0, refResize img 158 0) /\
  resolve refResize img [] 79 0 false true 80 24
  = Returned (158, 4, refResize img 158 4) /\
  Dy (refResize img 158 0) = 1 /\ Dy (refResize img 158 4) = 4.
Proof. repeat split. Qed.

(** ** The claims that fail as written, at concrete requests *)

(** C3 as written asks for a rounded height.  A source of 79 by 3 pixels
    on a surface of 80 columns probes at height 3; half of it is 1.5,
    which rounds to 2 under either usual tie rule, and the code derives
    1. *)
Lemma fill_height_not_rounded :
  Dy (refResize (plain 79 3) (80 - 1) 0) = 3 /\
  size refResize (plain 79 3) [] 0 0 true 80 24 = Returned (79, 1) /\
  size refResize (plain 79 3) [] 0 0 true 80 24
  <> Returned (80 - 1, round_half_away (Dy (refResize (plain 79 3) (80 - 1) 0))) /\
  size refResize (plain 79 3) [] 0 0 true 80 24
  <> Returned (80 - 1, round_half_even (Dy (refResize (plain 79 3) (80 - 1) 0))).
Proof.
  split; [reflexivity |]. split; [reflexivity |].
  split; vm_compute; discriminate.
Qed.

(** C5 as written promises the message on both inputs whatever their
    values.  With width 100 and height 5 on a surface of 80 columns the
    call fails with the message on the set width instead. *)
Lemma both_axes_width_checked_first :
  ConvertToAsciiPixels refResize (80, 24, None) (plain 400 200) [] 100 5
                       false false false false
  = Failed errSetWidth /\
  ConvertToAsciiPixels refResize (80, 24, None) (plain 400 200) [] 100 5
                       false false false false
  <> Failed errBoth.
Proof. split; [reflexivity | vm_compute; discriminate]. Qed.

(** C6 as written has the message name the offending width.  [ByWidth]
    at 100 on a surface of 80 columns fails with a message in which 100
    does not occur. *)
Lemma by_width_100_not_named :
  ConvertToAsciiPixels refResize (80, 24, None) (plain 400 200) [] 100 0
                       false false false false
  = Failed errSetWidth /\
  names_value errSetWidth 100 = false /\
  ~ (exists err,
       ConvertToAsciiPixels refResize (80, 24, None) (plain 400 200) [] 100 0
                            false false false false = Failed err /\
       names_value err 100 = true).
Proof.
  split; [reflexivity |]. split; [reflexivity |].
  intros (err & Herr & Hnames).
  change (@Failed (list (list AsciiPixel)) errSetWidth = Failed err) in Herr.
  injection Herr as <-. vm_compute in Hnames. discriminate.
Qed.

(** C7 as written covers every non-empty [dimensions].  With the single
    entry 5 the read of [dimensions[1]] panics: no width and height are
    taken and the call neither returns a grid nor an error. *)
Lemma explicit_one_entry_panics :
  size refResize (plain 400 200) [5] 0 0 false 80 24 = Panicked /\
  ConvertToAsciiPixels refResize (80, 24, None) (plain 400 200) [5] 0 0
                       false false false false
  = Panicked.
Proof. split; reflexivity. Qed.

(** ** The theorems at concrete requests *)

Lemma auto_request_witness :
  0 < 80 <= GoInt.max_int /\ 0 < 24 <= GoInt.max_int /\
  0 <= Dx (refResize (plain 400 200) 0 (24 - 1)) < 2 ^ 53 /\
  size refResize (plain 400 200) [] 0 0 false 80 24 = Returned (79, 20) /\
  resolve refResize (plain 400 200) [] 0 0 false false 80 24
  = Returned (79, 20, refResize (plain 400 200) 79 20) /\
  ConvertToAsciiPixels refResize (80, 24, None) (plain 400 200) [] 0 0
                       false false false false
  = Returned (sample (refResize (plain 400 200) 79 20)).
Proof.
  assert (Htw : 0 < 80 <= GoInt.max_int) by (unfold GoInt.max_int; lia).
  assert (Hth : 0 < 24 <= GoInt.max_int) by (unfold GoInt.max_int; lia).
  assert (Hprobe : 0 <= Dx (refResize (plain 400 200) 0 (24 - 1)) < 2 ^ 53)
    by (vm_compute; split; [discriminate | reflexivity]).
  assert (Hfallback : 80 <= 2 * Dx (refResize (plain 400 200) 0 (24 - 1)) ->
                      0 <= Dy (refResize (plain 400 200) (80 - 1) 0) < 2 ^ 53)
    by (intros _; vm_compute; split; [discriminate | reflexivity]).
  split; [exact Htw |]. split; [exact Hth |]. split; [exact Hprobe |].
  exact (auto_request refResize (plain 400 200) 80 24 false false false
                      Htw Hth Hprobe Hfallback).
Defined.

Lemma by_width_request_witness :
  0 < 80 <= GoInt.max_int /\ 79 <> 0 /\ 79 <= 80 - 1 /\
  ConvertToAsciiPixels refResize (80, 24, None) (plain 400 200) [] 79 0
                       false false false false
  = Returned (sample (refResize (plain 400 200) 79 20)).
Proof.
  assert (Htw : 0 < 80 <= GoInt.max_int) by (unfold GoInt.max_int; lia).
  assert (Hw : 79 <> 0) by lia.
  assert (Hle : 79 <= 80 - 1) by lia.
  split; [exact Htw |]. split; [exact Hw |]. split; [exact Hle |].
  exact (proj1 (by_width_request refResize (plain 400 200) 79 80 24
                                 false false false Htw Hw) Hle).
Defined.

Lemma fill_request_witness :
  0 < 80 < 2 ^ 62 /\
  0 <= Dy (refResize (plain 79 3) (80 - 1) 0) < 2 ^ 53 /\
  size refResize (plain 79 3) [] 0 0 true 80 24 = Returned (79, 1) /\
  resolve refResize (plain 79 3) [] 0 0 true true 80 24
  = Returned (158, 4, refResize (plain 79 3) 158 4).
Proof.
  assert (Htw : 0 < 80 < 2 ^ 62) by lia.
  assert (Hprobe : 0 <= Dy (refResize (plain 79 3) (80 - 1) 0) < 2 ^ 53)
    by (vm_compute; split; [discriminate | reflexivity]).
  split; [exact Htw |]. split; [exact Hprobe |].
  pose proof (fill_request refResize (plain 79 3) [] 0 0 80 24 false false
                           Htw Hprobe) as (Hsize & _ & Hbraille & _).
  split; [exact Hsize | exact Hbraille].
Defined.

Lemma both_axes_request_witness :
  0 < 80 <= GoInt.max_int /\ 10 <> 0 /\ 5 <> 0 /\
  ConvertToAsciiPixels refResize (80, 24, None) (plain 400 200) [] 10 5
                       false false false false
  = Failed errBoth.
Proof.
  assert (Htw : 0 < 80 <= GoInt.max_int) by (unfold GoInt.max_int; lia).
  assert (Hw : 10 <> 0) by lia.
  assert (Hh : 5 <> 0) by lia.
  split; [exact Htw |]. split; [exact Hw |]. split; [exact Hh |].
  exact (both_axes_request refResize (plain 400 200) 10 5 80 24
                           false false false Htw Hw Hh).
Defined.

Lemma error_messages_fixed_witness :
  ConvertToAsciiPixels refResize (80, 24, None) (plain 400 200) [] 0 100
                       false false false false
  = Failed errCalcWidth /\
  has_numeral errCalcWidth = false /\
  (forall v : Z, names_value errCalcWidth v = false).
Proof.
  assert (Hfail : ConvertToAsciiPixels refResize (80, 24, None) (plain 400 200)
                    [] 0 100 false false false false = Failed errCalcWidth)
    by reflexivity.
  split; [exact Hfail |].
  exact (proj2 (error_messages_fixed refResize (plain 400 200) [] 0 100 80 24
                                     false false false false errCalcWidth Hfail)).
Defined.

Lemma explicit_request_witness :
  0 < 80 <= GoInt.max_int /\ 100 > 80 - 1 /\
  size refResize (plain 400 200) [100; 30] 0 0 false 80 24 = Returned (100, 30) /\
  ConvertToAsciiPixels refResize (80, 24, None) (plain 400 200) [100; 30] 0 0
                       false false false false
  = Failed errSetWidth.
Proof.
  assert (Htw : 0 < 80 <= GoInt.max_int) by (unfold GoInt.max_int; lia).
  assert (Hw : 100 > 80 - 1) by lia.
  split; [exact Htw |]. split; [exact Hw |].
  pose proof (explicit_request refResize (plain 400 200) 100 30 [] 0 0 80 24
                               false false false Htw) as (Hsize & _ & Hfail & _).
  split; [exact Hsize | exact (Hfail Hw)].
Defined.

Lemma sampler_channels_witness :
  (1 < Z.to_nat (Y (Max (Bounds (refResize (ramp 3 2) 3 2)))
                 - Y (Min (Bounds (refResize (ramp 3 2) 3 2)))))%nat /\
  (2 < Z.to_nat (X (Max (Bounds (refResize (ramp 3 2) 3 2)))
                 - X (Min (Bounds (refResize (ramp 3 2) 3 2)))))%nat /\
  color.Gray_RGBA (color.grayModel (At (refResize (ramp 3 2) 3 2) (0 + 2) (0 + 1)))
  = (5397, 5397, 5397, 65535) /\
  color.NRGBA_RGBA (At (refResize (ramp 3 2) 3 2) (0 + 2) (0 + 1))
  = (5397, 5397, 5397, 65535) /\
  sample (refResize (ramp 3 2) 3 2) !! 1%nat ≫= (fun row => row !! 2%nat)
  = Some {| charDepth := 21; grayscaleValue := (21, 21, 21); rgbValue := (21, 21, 21) |} /\
  color.Gray_RGBA (color.grayModel (opaque Byte.xff Byte.x00 Byte.x00))
  = (19532, 19532, 19532, 65535) /\
  color.NRGBA_RGBA (opaque Byte.xff Byte.x00 Byte.x00) = (65535, 0, 0, 65535) /\
  asciiPixel (opaque Byte.xff Byte.x00 Byte.x00)
  = {| charDepth := 76; grayscaleValue := (76, 76, 76); rgbValue := (255, 0, 0) |} /\
  Bounds (refResize (black 2 2) 2 2)
  = {| Min := {| X := 0; Y := 0 |}; Max := {| X := 0 + 2; Y := 0 + 2 |} |} /\
  sample (refResize (black 2 2) 2 2) = [[zeroPixel; zeroPixel]; [zeroPixel; zeroPixel]].
Proof.
  assert (Hi : (1 < Z.to_nat (Y (Max (Bounds (refResize (ramp 3 2) 3 2)))
                              - Y (Min (Bounds (refResize (ramp 3 2) 3 2)))))%nat)
    by (vm_compute; lia).
  assert (Hj : (2 < Z.to_nat (X (Max (Bounds (refResize (ramp 3 2) 3 2)))
                              - X (Min (Bounds (refResize (ramp 3 2) 3 2)))))%nat)
    by (vm_compute; lia).
  assert (Hg21 : color.Gray_RGBA
                   (color.grayModel (At (refResize (ramp 3 2) 3 2) (0 + 2) (0 + 1)))
                 = (5397, 5397, 5397, 65535)) by reflexivity.
  assert (Hc21 : color.NRGBA_RGBA (At (refResize (ramp 3 2) 3 2) (0 + 2) (0 + 1))
                 = (5397, 5397, 5397, 65535)) by reflexivity.
  assert (Hgray : color.Gray_RGBA (color.grayModel (opaque Byte.xff Byte.x00 Byte.x00))
                  = (19532, 19532, 19532, 65535)) by reflexivity.
  assert (Hrgb : color.NRGBA_RGBA (opaque Byte.xff Byte.x00 Byte.x00)
                 = (65535, 0, 0, 65535)) by reflexivity.
  assert (Hbounds : Bounds (refResize (black 2 2) 2 2)
                    = {| Min := {| X := 0; Y := 0 |};
                         Max := {| X := 0 + 2; Y := 0 + 2 |} |}) by reflexivity.
  assert (Hblack : fully_black (refResize (black 2 2) 2 2)).
  { intros x y _. unfold At. destruct (In x y _); repeat split; reflexivity. }
  destruct sampler_channels as (Hcells & _ & _ & Hpixel & Hscenario).
  split; [exact Hi |]. split; [exact Hj |].
  split; [exact Hg21 |]. split; [exact Hc21 |].
  split; [exact (proj2 (proj2 (Hcells (refResize (ramp 3 2) 3 2) 1%nat 2%nat
                                      _ _ _ _ _ _ _ _ Hi Hj Hg21 Hc21))) |].
  split; [exact Hgray |]. split; [exact Hrgb |].
  split; [exact (proj1 (proj2 (proj2 (Hpixel _ _ _ _ _ _ _ _ _ Hgray Hrgb)))) |].
  split; [exact Hbounds |].
  exact (Hscenario _ 0 0 Hbounds Hblack).
Defined.

Lemma grid_rectangular_witness :
  ConvertToAsciiPixels refResize (80, 24, None) (plain 4 4) [3; 2] 0 0
                       false false false false
  = Returned (sample (refResize (plain 4 4) 3 2)) /\
  length (sample (refResize (plain 4 4) 3 2)) = 2%nat /\
  Forall (fun row => length row = 3%nat) (sample (refResize (plain 4 4) 3 2)).
Proof.
  assert (Hgrid : ConvertToAsciiPixels refResize (80, 24, None) (plain 4 4) [3; 2] 0 0
                    false false false false
                  = Returned (sample (refResize (plain 4 4) 3 2))) by reflexivity.
  split; [exact Hgrid |].
  destruct (proj1 (grid_rectangular refResize 80 24 (plain 4 4) [3; 2] 0 0
                                    false false false false _ Hgrid))
    as (w & h & smallImg & Hres & Hrows & Hcols).
  change (Returned (3, 2, refResize (plain 4 4) 3 2) = Returned (w, h, smallImg)) in Hres.
  injection Hres as <- <- <-.
  split; [exact Hrows | exact Hcols].
Defined.

(** * Further properties of [ConvertToAsciiPixels] *)

(** ** Sizing by height, and the clamp of sizing by width *)

(** X1: A [ByHeight] request (height not 0, width 0, no dimensions, not full,
    lines 91-112) on a surface of positive width.  The width is twice the
    width of the probe resized to that height; the call returns the pixels
    of the final resize when that width is at most the surface width less
    one, and fails with the message on the calculated width otherwise. *)
Theorem by_height_request {Image : Type} (Resize : Image -> Z -> Z -> image.NRGBA)
    (img : Image) (h tw th : Z) (flipX flipY isBraille : bool) :
  0 < tw <= GoInt.max_int -> h <> 0 ->
  0 <= Dx (Resize img 0 h) < 2 ^ 53 ->
  (2 * Dx (Resize img 0 h) <= tw - 1 ->
   size Resize img [] 0 h false tw th = Returned (2 * Dx (Resize img 0 h), h) /\
   ConvertToAsciiPixels Resize (tw, th, None) img [] 0 h flipX flipY false isBraille
   = Returned (mirror flipX flipY
                 (sample (snd (finish Resize img isBraille
                                 (2 * Dx (Resize img 0 h)) h))))) /\
  (2 * Dx (Resize img 0 h) > tw - 1 ->
   ConvertToAsciiPixels Resize (tw, th, None) img [] 0 h flipX flipY false isBraille
   = Failed errCalcWidth).
Proof.
  intros Htw Hh Hprobe.
  assert (Hmode : size Resize img [] 0 h false tw th
                  = heightSize Resize img h tw).
  { unfold size, axisSize. rewrite (sub_one tw Htw), Z.gtb_ltb.
    destruct (Z.eqb_spec h 0); [contradiction |]. simpl.
    destruct (Z.ltb_spec (tw - 1) 0); [lia | reflexivity]. }
  assert (Hsize : heightSize Resize img h tw
                  = if 2 * Dx (Resize img 0 h) >? tw - 1
                    then Failed errCalcWidth
                    else Returned (2 * Dx (Resize img 0 h), h)).
  { unfold heightSize. cbv zeta.
    rewrite int_of_twice_float64 by lia. rewrite (sub_one tw Htw). reflexivity. }
  rewrite Hsize, Z.gtb_ltb in Hmode.
  split; intros Hw.
  - destruct (Z.ltb_spec (tw - 1) (2 * Dx (Resize img 0 h))); [lia |].
    split; [exact Hmode |].
    rewrite ConvertToAsciiPixels_steps. unfold resolve. rewrite Hmode. reflexivity.
  - destruct (Z.ltb_spec (tw - 1) (2 * Dx (Resize img 0 h))); [| lia].
    rewrite ConvertToAsciiPixels_steps. unfold resolve. rewrite Hmode. reflexivity.
Qed.

(** X2: A [ByWidth] request within the surface (lines 78-89) derives the
    height as half the probe height, truncated, and never less than 1:
    a probe of height 0 or 1 gives height 1. *)
Theorem by_width_height_clamped {Image : Type} (Resize : Image -> Z -> Z -> image.NRGBA)
    (img : Image) (w tw th : Z) :
  0 < tw <= GoInt.max_int -> w <> 0 -> w <= tw - 1 ->
  0 <= Dy (Resize img w 0) < 2 ^ 53 ->
  size Resize img [] w 0 false tw th
  = Returned (w, Z.max 1 (Dy (Resize img w 0) ÷ 2)) /\
  (Dy (Resize img w 0) <= 1 -> size Resize img [] w 0 false tw th = Returned (w, 1)).
Proof.
  intros Htw Hw Hle Hprobe.
  assert (Hsize : size Resize img [] w 0 false tw th
                  = Returned (w, Z.max 1 (Dy (Resize img w 0) ÷ 2))).
  { unfold size, axisSize. rewrite (sub_one tw Htw), Z.gtb_ltb.
    destruct (Z.eqb_spec w 0); [contradiction |]. simpl.
    destruct (Z.ltb_spec (tw - 1) w); [lia |].
    unfold widthSize. cbv zeta. rewrite int_of_half_float64 by lia.
    pose proof (quot2_range _ Hprobe).
    destruct (Z.eqb_spec (Dy (Resize img w 0) ÷ 2) 0) as [Hz | Hz].
    - rewrite Hz. reflexivity.
    - do 2 f_equal. lia. }
  split; [exact Hsize |].
  intros Hsmall. rewrite Hsize. do 2 f_equal.
  assert (Dy (Resize img w 0) ÷ 2 = 0); [| lia].
  apply Z.quot_small. lia.
Qed.

(** ** Which cell lands where *)

Lemma lookup_rev {T : Type} (l : list T) (i : nat) :
  (i < length l)%nat -> rev l !! i = l !! (length l - 1 - i)%nat.
Proof.
  induction l as [| x l IH]; simpl; intros Hi; [lia |].
  destruct (Nat.eq_dec i (length l)) as [-> | Hne].
  - rewrite lookup_app_r by (rewrite length_rev; lia).
    rewrite length_rev, Nat.sub_diag.
    replace (length l - 0 - length l)%nat with 0%nat by lia. reflexivity.
  - rewrite lookup_app_l by (rewrite length_rev; lia).
    rewrite IH by lia.
    replace (length l - 0 - i)%nat with (S (length l - 1 - i)) by lia.
    reflexivity.
Qed.

Lemma mirror_cell (flipX flipY : bool) (imgSet : list (list AsciiPixel))
    (rows cols i j : nat) :
  length imgSet = rows ->
  Forall (fun row => length row = cols) imgSet ->
  (i < rows)%nat -> (j < cols)%nat ->
  mirror flipX flipY imgSet !! i ≫= (fun row => row !! j)
  = imgSet !! (if flipY then rows - 1 - i else i)%nat
    ≫= (fun row => row !! (if flipX then cols - 1 - j else j)%nat).
Proof.
  intros Hrows Hcols Hi Hj. unfold mirror.
  set (i' := (if flipY then rows - 1 - i else i)%nat).
  assert (Hi' : (i' < rows)%nat) by (subst i'; destruct flipY; lia).
  assert (Hy : (if flipY
                then rev (if flipX then map (@rev AsciiPixel) imgSet else imgSet)
                else (if flipX then map (@rev AsciiPixel) imgSet else imgSet)) !! i
               = (if flipX then map (@rev AsciiPixel) imgSet else imgSet) !! i').
  { subst i'. destruct flipY; [| reflexivity].
    rewrite lookup_rev.
    - f_equal. destruct flipX; rewrite ?length_map; lia.
    - destruct flipX; rewrite ?length_map; lia. }
  rewrite Hy.
  destruct (lookup_lt_is_Some_2 imgSet i') as [row Hrow]; [lia |].
  assert (Hlen : length row = cols).
  { rewrite Forall_forall in Hcols. apply Hcols.
    eapply list_elem_of_lookup_2. exact Hrow. }
  rewrite Hrow. simpl.
  destruct flipX.
  - change (map ?f ?l) with (f <$> l).
    rewrite list_lookup_fmap, Hrow. simpl.
    rewrite lookup_rev by lia. rewrite Hlen. reflexivity.
  - rewrite Hrow. reflexivity.
Qed.

(** X3: The cell at row [i] and column [j] of the returned grid (lines
    161-201 and [reverse]) is the [AsciiPixel] of the pixel of the resized
    image at column [j] and row [i] from the minimum corner; [flipX]
    counts the column from the last one and [flipY] the row from the last
    one. *)
Theorem grid_cell {Image : Type} (Resize : Image -> Z -> Z -> image.NRGBA)
    (tw th : Z) (img : Image) (dimensions : list Z) (width height : Z)
    (flipX flipY full isBraille : bool) (grid : list (list AsciiPixel))
    (asciiWidth asciiHeight : Z) (smallImg : image.NRGBA) (i j : nat) :
  resolve Resize img dimensions width height full isBraille tw th
  = Returned (asciiWidth, asciiHeight, smallImg) ->
  ConvertToAsciiPixels Resize (tw, th, None) img dimensions width height
                       flipX flipY full isBraille = Returned grid ->
  let rows := Z.to_nat (Y (Max (Bounds smallImg)) - Y (Min (Bounds smallImg))) in
  let cols := Z.to_nat (X (Max (Bounds smallImg)) - X (Min (Bounds smallImg))) in
  (i < rows)%nat -> (j < cols)%nat ->
  grid !! i ≫= (fun row => row !! j)
  = Some (asciiPixel
            (At smallImg
                (X (Min (Bounds smallImg))
                 + Z.of_nat (if flipX then cols - 1 - j else j))
                (Y (Min (Bounds smallImg))
                 + Z.of_nat (if flipY then rows - 1 - i else i)))).
Proof.
  intros Hres Hgrid rows cols Hi Hj.
  rewrite ConvertToAsciiPixels_steps, Hres in Hgrid. simpl in Hgrid.
  destruct (checkDimensions dimensions full tw) as [[] | err |];
    simpl in Hgrid; try discriminate.
  injection Hgrid as <-.
  destruct (sample_rectangular smallImg) as [Hrows Hcols].
  rewrite (mirror_cell flipX flipY (sample smallImg) rows cols i j Hrows Hcols Hi Hj).
  apply sample_cell.
  - destruct flipY; fold rows; lia.
  - destruct flipX; fold cols; lia.
Qed.

(** ** Outcomes: panics, requests that always succeed, braille *)

Lemma resolve_by_size {Image : Type} (Resize : Image -> Z -> Z -> image.NRGBA)
    (img : Image) (dimensions : list Z) (width height : Z)
    (full isBraille : bool) (tw th : Z) :
  resolve Resize img dimensions width height full isBraille tw th
  = match size Resize img dimensions width height full tw th with
    | Returned wh => Returned (finish Resize img isBraille (fst wh) (snd wh))
    | Failed err => Failed err
    | Panicked => Panicked
    end.
Proof.
  unfold resolve.
  destruct (size Resize img dimensions width height full tw th) as [[w h] | err |];
    reflexivity.
Qed.

(** X4: the panics of the file's own code.  [imaging.Resize] is a
    parameter that returns an image: a panic of its own (on a nil image,
    on a size it cannot allocate) is outside the embedding, and this
    statement is about the calls in which it returns.  In those, with the
    terminal size at hand, the call panics in one case only: a
    [dimensions] slice of exactly one entry with [full] unset, where line
    144 reads [dimensions[1]].  It panics there whatever the other inputs
    are; the read of [dimensions[0]] at lines 143 and 156 and the swaps of
    [reverse] never leave their slice. *)
Theorem panics_exactly_on_single_dimension {Image : Type}
    (Resize : Image -> Z -> Z -> image.NRGBA)
    (tw th : Z) (img : Image) (dimensions : list Z) (width height : Z)
    (flipX flipY full isBraille : bool) :
  ConvertToAsciiPixels Resize (tw, th, None) img dimensions width height
                       flipX flipY full isBraille = Panicked
  <-> full = false /\ length dimensions = 1%nat.
Proof.
  rewrite ConvertToAsciiPixels_steps, resolve_by_size. unfold size.
  destruct full.
  { rewrite checkDimensions_full. simpl.
    split; [discriminate | intros [? _]; discriminate]. }
  destruct dimensions as [| d [| d' rest]].
  - change (len (@nil Z) =? 0) with true. rewrite andb_true_r.
    change (checkDimensions [] false tw) with (Returned tt).
    split; [| intros [_ ?]; discriminate].
    destruct (negb (width =? 0) || negb (height =? 0)); simpl; [| discriminate].
    unfold axisSize, heightSize. cbv zeta.
    destruct (width >? GoInt.sub tw 1); simpl; [discriminate |].
    destruct (negb (width =? 0) && (height =? 0)); simpl; [discriminate |].
    destruct (negb (height =? 0) && (width =? 0)); simpl; [| discriminate].
    destruct (_ >? _); simpl; discriminate.
  - change (len [d] =? 0) with false. rewrite andb_false_r. simpl.
    split; [intros _; split; reflexivity | reflexivity].
  - change (len (d :: d' :: rest) =? 0) with false. rewrite andb_false_r. simpl.
    split; [| intros [_ ?]; discriminate].
    unfold checkDimensions.
    change (index (d :: d' :: rest) 0) with (Returned d).
    destruct ((len (d :: d' :: rest) >? 0) && negb false); simpl; [| discriminate].
    destruct (d >? GoInt.sub tw 1); simpl; discriminate.
Qed.

(** X5: With [full] set the call always returns a grid, on any surface and
    for any image, and [dimensions], [width] and [height] play no part:
    not even a first dimension beyond the surface or a [dimensions] of one
    entry changes the grid.  An [Auto] request (nothing set) always
    returns a grid too. *)
Theorem fill_and_auto_always_return {Image : Type}
    (Resize : Image -> Z -> Z -> image.NRGBA)
    (tw th : Z) (img : Image) (flipX flipY isBraille : bool) :
  (forall (dimensions : list Z) (width height : Z),
     ConvertToAsciiPixels Resize (tw, th, None) img dimensions width height
                          flipX flipY true isBraille
     = ConvertToAsciiPixels Resize (tw, th, None) img [] 0 0
                            flipX flipY true isBraille) /\
  (exists grid,
     ConvertToAsciiPixels Resize (tw, th, None) img [] 0 0
                          flipX flipY true isBraille = Returned grid) /\
  (exists grid,
     ConvertToAsciiPixels Resize (tw, th, None) img [] 0 0
                          flipX flipY false isBraille = Returned grid).
Proof.
  split; [| split].
  - intros dimensions width height.
    rewrite !ConvertToAsciiPixels_steps, !resolve_by_size, !checkDimensions_full.
    reflexivity.
  - rewrite ConvertToAsciiPixels_steps, resolve_by_size. eexists. reflexivity.
  - rewrite ConvertToAsciiPixels_steps, resolve_by_size. eexists. reflexivity.
Qed.

(** X6: The braille cell unit comes after every check (lines 66-68, 109-111,
    137-139, 146-148): the width tests bear on the unscaled width, so a
    braille request fails or panics exactly when the plain one does, with
    the same error; and when the plain request resizes to a width and
    height whose multiples fit an [int], the braille request resizes to
    twice that width and four times that height, be it wider than the
    surface. *)
Theorem braille_after_checks {Image : Type} (Resize : Image -> Z -> Z -> image.NRGBA)
    (tw th : Z) (img : Image) (dimensions : list Z) (width height : Z)
    (flipX flipY full : bool) :
  (forall err,
     ConvertToAsciiPixels Resize (tw, th, None) img dimensions width height
                          flipX flipY full false = Failed err
     <-> ConvertToAsciiPixels Resize (tw, th, None) img dimensions width height
                              flipX flipY full true = Failed err) /\
  (forall (asciiWidth asciiHeight : Z) (grid : list (list AsciiPixel)),
     - 2 ^ 62 <= asciiWidth < 2 ^ 62 -> - 2 ^ 61 <= asciiHeight < 2 ^ 61 ->
     resolve Resize img dimensions width height full false tw th
     = Returned (asciiWidth, asciiHeight, Resize img asciiWidth asciiHeight) ->
     ConvertToAsciiPixels Resize (tw, th, None) img dimensions width height
                          flipX flipY full false = Returned grid ->
     resolve Resize img dimensions width height full true tw th
     = Returned (2 * asciiWidth, 4 * asciiHeight,
                 Resize img (2 * asciiWidth) (4 * asciiHeight)) /\
     ConvertToAsciiPixels Resize (tw, th, None) img dimensions width height
                          flipX flipY full true
     = Returned (mirror flipX flipY
                   (sample (Resize img (2 * asciiWidth) (4 * asciiHeight))))).
Proof.
  split.
  - intros err. rewrite !ConvertToAsciiPixels_steps. unfold resolve.
    destruct (size Resize img dimensions width height full tw th)
      as [[w h] | e |]; simpl; [| tauto | tauto].
    destruct (checkDimensions dimensions full tw) as [[] | e |]; simpl;
      [| tauto | tauto].
    split; discriminate.
  - intros asciiWidth asciiHeight grid Hw Hh Hres Hplain.
    assert (Hbraille : resolve Resize img dimensions width height full true tw th
                       = Returned (2 * asciiWidth, 4 * asciiHeight,
                                   Resize img (2 * asciiWidth) (4 * asciiHeight))).
    { unfold resolve in *.
      destruct (size Resize img dimensions width height full tw th)
        as [[w h] | e |]; simpl in *; try discriminate.
      unfold finish in *. simpl in Hres. injection Hres as -> -> _.
      rewrite cellScale_braille by assumption. reflexivity. }
    split; [exact Hbraille |].
    rewrite ConvertToAsciiPixels_steps in *. rewrite Hres in Hplain.
    rewrite Hbraille. simpl in *.
    destruct (checkDimensions dimensions full tw) as [[] | e |];
      simpl in *; try discriminate.
    reflexivity.
Qed.

(** X7: Whenever the call returns a grid, the width the sizing settled on
    before cell scaling is at most the surface width less one, in every
    mode: [Fill] takes exactly that width, [Auto] falls back on it,
    [ByWidth], [ByHeight] and explicit dimensions are checked against
    it. *)
Theorem width_fits_surface {Image : Type} (Resize : Image -> Z -> Z -> image.NRGBA)
    (tw th : Z) (img : Image) (dimensions : list Z) (width height : Z)
    (flipX flipY full isBraille : bool) (grid : list (list AsciiPixel))
    (asciiWidth asciiHeight : Z) :
  0 < tw <= GoInt.max_int ->
  size Resize img dimensions width height full tw th
  = Returned (asciiWidth, asciiHeight) ->
  ConvertToAsciiPixels Resize (tw, th, None) img dimensions width height
                       flipX flipY full isBraille = Returned grid ->
  asciiWidth <= tw - 1.
Proof.
  intros Htw Hsize Hgrid.
  rewrite ConvertToAsciiPixels_steps, resolve_by_size, Hsize in Hgrid.
  simpl in Hgrid. unfold size in Hsize.
  destruct full.
  { unfold fullSize in Hsize. cbv zeta in Hsize. rewrite (sub_one tw Htw) in Hsize.
    injection Hsize as <- _. lia. }
  destruct ((negb (width =? 0) || negb (height =? 0)) && (len dimensions =? 0)).
  { unfold axisSize in Hsize. rewrite (sub_one tw Htw), Z.gtb_ltb in Hsize.
    destruct (Z.ltb_spec (tw - 1) width); [discriminate |].
    destruct (negb (width =? 0) && (height =? 0)).
    - unfold widthSize in Hsize. cbv zeta in Hsize. injection Hsize as <- _. lia.
    - destruct (negb (height =? 0) && (width =? 0)); [| discriminate].
      unfold heightSize in Hsize. cbv zeta in Hsize.
      rewrite (sub_one tw Htw), Z.gtb_ltb in Hsize.
      destruct (Z.ltb_spec (tw - 1)
                  (GoInt.int_of_twice (GoInt.float64 (Dx (Resize img 0 height)))));
        [discriminate |].
      injection Hsize as <- _. lia. }
  destruct (len dimensions =? 0) eqn:Hlen.
  { unfold autoSize in Hsize. cbv zeta in Hsize.
    rewrite (sub_one tw Htw), (Z.geb_leb _ tw) in Hsize.
    destruct (Z.leb_spec tw
                (GoInt.int_of_twice
                   (GoInt.float64 (Dx (Resize img 0 (GoInt.sub th 1))))));
      injection Hsize as <- _; lia. }
  destruct dimensions as [| d [| d' rest]]; try discriminate.
  unfold givenSize in Hsize.
  change (index (d :: d' :: rest) 0) with (Returned d) in Hsize.
  change (index (d :: d' :: rest) 1) with (Returned d') in Hsize.
  simpl in Hsize. injection Hsize as <- _.
  unfold checkDimensions in Hgrid.
  change (index (d :: d' :: rest) 0) with (Returned d) in Hgrid.
  replace (len (d :: d' :: rest) >? 0) with true in Hgrid.
  2:{ symmetry. rewrite Z.gtb_ltb. apply Z.ltb_lt. unfold len. simpl length. lia. }
  simpl in Hgrid. rewrite (sub_one tw Htw), Z.gtb_ltb in Hgrid.
  destruct (Z.ltb_spec (tw - 1) d); [discriminate | lia].
Qed.

(** ** What one cell holds *)

Lemma of_uint8_uint8 (z : Z) : GoInt.of_uint8 (GoInt.uint8 z) = z mod 256.
Proof.
  unfold GoInt.of_uint8, GoInt.uint8.
  pose proof (Z.mod_pos_bound z 256 ltac:(lia)) as Hmod.
  destruct (Byte.of_N (Z.to_N (z mod 256))) as [b |] eqn:Hb.
  - apply Byte.to_of_N in Hb. rewrite Hb. lia.
  - apply Byte.of_N_None_iff in Hb. lia.
Qed.

Lemma asciiPixel_fields (p : color.NRGBA) :
  asciiPixel p
  = {| charDepth := GoInt.of_uint8 (color.Y (color.grayModel p));
       grayscaleValue := (GoInt.of_uint8 (color.Y (color.grayModel p)),
                          GoInt.of_uint8 (color.Y (color.grayModel p)),
                          GoInt.of_uint8 (color.Y (color.grayModel p)));
       rgbValue := (color.premul (color.R p) (color.A p) / 257,
                    color.premul (color.G p) (color.A p) / 257,
                    color.premul (color.B p) (color.A p) / 257) |}.
Proof.
  unfold asciiPixel. rewrite Gray_RGBA_value. unfold color.NRGBA_RGBA. cbv zeta.
  remember (GoInt.of_uint8 (color.Y (color.grayModel p))) as y eqn:Ey.
  pose proof (of_uint8_range (color.Y (color.grayModel p))) as Hy. rewrite <- Ey in Hy.
  pose proof (premul_range (color.R p) (color.A p)) as Hr.
  pose proof (premul_range (color.G p) (color.A p)) as Hg.
  pose proof (premul_range (color.B p) (color.A p)) as Hb.
  replace (257 * y / 257) with y by (rewrite Z.mul_comm, Z.div_mul; lia).
  rewrite !u32_small; [reflexivity | ..]; try lia;
    match goal with
    | |- 0 <= ?r / 257 <= 65535 => pose proof (scaled_range r ltac:(lia)); lia
    end.
Qed.

Lemma premul_opaque (c : byte) : color.premul c Byte.xff / 257 = GoInt.of_uint8 c.
Proof. destruct c; vm_compute; reflexivity. Qed.

Lemma premul_transparent (c : byte) : color.premul c Byte.x00 = 0.
Proof.
  rewrite premul_value. change (GoInt.of_uint8 Byte.x00) with 0.
  rewrite Z.mul_0_r. reflexivity.
Qed.

(** X8: The intensity of a cell (lines 172-178) is the weighted sum of the
    three 16-bit channels of the pixel, [19595 r + 38470 g + 7471 b], plus
    [2^15] for rounding, divided by [2^24]: neither the [uint32] sum nor
    the narrowing to [uint8] wraps.  The three grayscale fields repeat
    it. *)
Theorem intensity_weighted_sum (p : color.NRGBA) (r g b a : Z) :
  color.NRGBA_RGBA p = (r, g, b, a) ->
  charDepth (asciiPixel p) = (19595 * r + 38470 * g + 7471 * b + 2 ^ 15) / 2 ^ 24 /\
  grayscaleValue (asciiPixel p)
  = (charDepth (asciiPixel p), charDepth (asciiPixel p), charDepth (asciiPixel p)).
Proof.
  intros Hrgb. rewrite asciiPixel_fields. cbn [charDepth grayscaleValue].
  split; [| reflexivity].
  unfold color.grayModel. rewrite Hrgb. cbn [color.Y].
  unfold color.NRGBA_RGBA in Hrgb. injection Hrgb as Hr Hg Hb _.
  pose proof (premul_range (color.R p) (color.A p)) as Hr'.
  pose proof (premul_range (color.G p) (color.A p)) as Hg'.
  pose proof (premul_range (color.B p) (color.A p)) as Hb'.
  rewrite Hr in Hr'. rewrite Hg in Hg'. rewrite Hb in Hb'.
  rewrite of_uint8_uint8.
  change (Z.shiftl 1 15) with (2 ^ 15).
  rewrite Z.shiftr_div_pow2 by lia.
  unfold GoInt.u32.
  rewrite (Z.mod_small (19595 * r + 38470 * g + 7471 * b + 2 ^ 15)) by lia.
  apply Z.mod_small. split.
  - apply Z.div_pos; lia.
  - apply Z.div_lt_upper_bound; lia.
Qed.

(** X9: An opaque pixel gives back its 8-bit channels as the colour triple
    (widening to 16 bits and dividing by 257 undo each other), and an
    opaque grey pixel has its grey level as intensity; a fully transparent
    pixel gives the zero cell whatever its channels hold (lines
    171-190). *)
Theorem opaque_and_transparent_cells :
  (forall r g b : byte,
     rgbValue (asciiPixel (opaque r g b))
     = (GoInt.of_uint8 r, GoInt.of_uint8 g, GoInt.of_uint8 b)) /\
  (forall v : byte,
     asciiPixel (opaque v v v)
     = {| charDepth := GoInt.of_uint8 v;
          grayscaleValue := (GoInt.of_uint8 v, GoInt.of_uint8 v, GoInt.of_uint8 v);
          rgbValue := (GoInt.of_uint8 v, GoInt.of_uint8 v, GoInt.of_uint8 v) |}) /\
  (forall r g b : byte,
     asciiPixel {| color.R := r; color.G := g; color.B := b; color.A := Byte.x00 |}
     = zeroPixel).
Proof.
  split; [| split].
  - intros r g b. rewrite asciiPixel_fields. simpl.
    rewrite !premul_opaque. reflexivity.
  - intros v. destruct v; vm_compute; reflexivity.
  - intros r g b. rewrite asciiPixel_fields. simpl.
    unfold color.grayModel, color.NRGBA_RGBA. simpl.
    rewrite !premul_transparent. reflexivity.
Qed.

(** X10: An empty resized image gives an empty grid, not an error: with no
    row inside the bounds the grid is nil, and with no column every row is
    empty (lines 163-194). *)
Theorem empty_image_empty_grid (smallImg : image.NRGBA) :
  (Y (Max (Bounds smallImg)) <= Y (Min (Bounds smallImg)) -> sample smallImg = []) /\
  (X (Max (Bounds smallImg)) <= X (Min (Bounds smallImg)) ->
   Forall (fun row => row = []) (sample smallImg)).
Proof.
  rewrite sample_rows. unfold range. split; intros Hle.
  - replace (Z.to_nat (Y (Max (Bounds smallImg)) - Y (Min (Bounds smallImg))))
      with 0%nat by lia.
    reflexivity.
  - replace (Z.to_nat (X (Max (Bounds smallImg)) - X (Min (Bounds smallImg))))
      with 0%nat by lia.
    rewrite Forall_map. apply Forall_forall. intros y _. reflexivity.
Qed.

(** ** The further properties at concrete requests *)

Lemma by_height_request_witness :
  0 < 80 <= GoInt.max_int /\ 10 <> 0 /\
  0 <= Dx (refResize (plain 400 200) 0 10) < 2 ^ 53 /\
  2 * Dx (refResize (plain 400 200) 0 10) <= 80 - 1 /\
  size refResize (plain 400 200) [] 0 10 false 80 24 = Returned (40, 10) /\
  ConvertToAsciiPixels refResize (80, 24, None) (plain 400 200) [] 0 10
                       false false false false
  = Returned (sample (refResize (plain 400 200) 40 10)).
Proof.
  assert (Htw : 0 < 80 <= GoInt.max_int) by (unfold GoInt.max_int; lia).
  assert (Hh : 10 <> 0) by lia.
  assert (Hprobe : 0 <= Dx (refResize (plain 400 200) 0 10) < 2 ^ 53)
    by (vm_compute; split; [discriminate | reflexivity]).
  assert (Hfit : 2 * Dx (refResize (plain 400 200) 0 10) <= 80 - 1)
    by (vm_compute; discriminate).
  split; [exact Htw |]. split; [exact Hh |]. split; [exact Hprobe |].
  split; [exact Hfit |].
  exact (proj1 (by_height_request refResize (plain 400 200) 10 80 24
                                  false false false Htw Hh Hprobe) Hfit).
Defined.

Lemma by_width_height_clamped_witness :
  0 < 80 <= GoInt.max_int /\ 79 <> 0 /\ 79 <= 80 - 1 /\
  0 <= Dy (refResize (plain 400 2) 79 0) < 2 ^ 53 /\
  Dy (refResize (plain 400 2) 79 0) <= 1 /\
  size refResize (plain 400 2) [] 79 0 false 80 24 = Returned (79, 1).
Proof.
  assert (Htw : 0 < 80 <= GoInt.max_int) by (unfold GoInt.max_int; lia).
  assert (Hw : 79 <> 0) by lia.
  assert (Hle : 79 <= 80 - 1) by lia.
  assert (Hprobe : 0 <= Dy (refResize (plain 400 2) 79 0) < 2 ^ 53)
    by (vm_compute; split; [discriminate | reflexivity]).
  assert (Hsmall : Dy (refResize (plain 400 2) 79 0) <= 1)
    by (vm_compute; discriminate).
  split; [exact Htw |]. split; [exact Hw |]. split; [exact Hle |].
  split; [exact Hprobe |]. split; [exact Hsmall |].
  exact (proj2 (by_width_height_clamped refResize (plain 400 2) 79 80 24
                                        Htw Hw Hle Hprobe) Hsmall).
Defined.

Lemma grid_cell_witness :
  resolve refResize (ramp 3 2) [3; 2] 0 0 false false 80 24
  = Returned (3, 2, refResize (ramp 3 2) 3 2) /\
  ConvertToAsciiPixels refResize (80, 24, None) (ramp 3 2) [3; 2] 0 0
                       true false false false
  = Returned (mirror true false (sample (refResize (ramp 3 2) 3 2))) /\
  mirror true false (sample (refResize (ramp 3 2) 3 2)) !! 1%nat
    ≫= (fun row => row !! 0%nat)
  = Some {| charDepth := 21; grayscaleValue := (21, 21, 21); rgbValue := (21, 21, 21) |}.
Proof.
  assert (Hres : resolve refResize (ramp 3 2) [3; 2] 0 0 false false 80 24
                 = Returned (3, 2, refResize (ramp 3 2) 3 2)) by reflexivity.
  assert (Hgrid : ConvertToAsciiPixels refResize (80, 24, None) (ramp 3 2) [3; 2] 0 0
                    true false false false
                  = Returned (mirror true false (sample (refResize (ramp 3 2) 3 2)))).
  { rewrite ConvertToAsciiPixels_steps. reflexivity. }
  split; [exact Hres |]. split; [exact Hgrid |].
  exact (grid_cell refResize 80 24 (ramp 3 2) [3; 2] 0 0 true false false false
                   _ 3 2 _ 1%nat 0%nat Hres Hgrid
                   ltac:(vm_compute; lia) ltac:(vm_compute; lia)).
Defined.

Lemma braille_after_checks_witness :
  resolve refResize (plain 400 200) [] 79 0 false false 80 24
  = Returned (79, 20, refResize (plain 400 200) 79 20) /\
  ConvertToAsciiPixels refResize (80, 24, None) (plain 400 200) [] 79 0
                       false false false false
  = Returned (sample (refResize (plain 400 200) 79 20)) /\
  resolve refResize (plain 400 200) [] 79 0 false true 80 24
  = Returned (158, 80, refResize (plain 400 200) 158 80) /\
  ConvertToAsciiPixels refResize (80, 24, None) (plain 400 200) [] 79 0
                       false false false true
  = Returned (sample (refResize (plain 400 200) 158 80)).
Proof.
  assert (Hres : resolve refResize (plain 400 200) [] 79 0 false false 80 24
                 = Returned (79, 20, refResize (plain 400 200) 79 20)) by reflexivity.
  assert (Hplain : ConvertToAsciiPixels refResize (80, 24, None) (plain 400 200) [] 79 0
                     false false false false
                   = Returned (sample (refResize (plain 400 200) 79 20))) by reflexivity.
  split; [exact Hres |]. split; [exact Hplain |].
  exact (proj2 (braille_after_checks refResize 80 24 (plain 400 200) [] 79 0
                                     false false false)
               79 20 _ ltac:(lia) ltac:(lia) Hres Hplain).
Defined.

Lemma intensity_weighted_sum_witness :
  color.NRGBA_RGBA (opaque Byte.xff Byte.x00 Byte.x00) = (65535, 0, 0, 65535) /\
  charDepth (asciiPixel (opaque Byte.xff Byte.x00 Byte.x00)) = 76.
Proof.
  assert (Hrgb : color.NRGBA_RGBA (opaque Byte.xff Byte.x00 Byte.x00)
                 = (65535, 0, 0, 65535)) by reflexivity.
  split; [exact Hrgb |].
  exact (proj1 (intensity_weighted_sum _ _ _ _ _ Hrgb)).
Defined.

Lemma empty_image_empty_grid_witness :
  Y (Max (Bounds (refResize (plain 4 4) (-3) 0)))
  <= Y (Min (Bounds (refResize (plain 4 4) (-3) 0))) /\
  sample (refResize (plain 4 4) (-3) 0) = [].
Proof.
  assert (Hle : Y (Max (Bounds (refResize (plain 4 4) (-3) 0)))
                <= Y (Min (Bounds (refResize (plain 4 4) (-3) 0))))
    by (vm_compute; discriminate).
  split; [exact Hle |].
  exact (proj1 (empty_image_empty_grid _) Hle).
Defined.

Lemma width_fits_surface_witness :
  0 < 80 <= GoInt.max_int /\
  size refResize (plain 400 200) [] 0 0 false 80 24 = Returned (79, 20) /\
  ConvertToAsciiPixels refResize (80, 24, None) (plain 400 200) [] 0 0
                       false false false false
  = Returned (sample (refResize (plain 400 200) 79 20)) /\
  79 <= 80 - 1.
Proof.
  assert (Htw : 0 < 80 <= GoInt.max_int) by (unfold GoInt.max_int; lia).
  assert (Hsize : size refResize (plain 400 200) [] 0 0 false 80 24
                  = Returned (79, 20)) by reflexivity.
  assert (Hgrid : ConvertToAsciiPixels refResize (80, 24, None) (plain 400 200) [] 0 0
                    false false false false
                  = Returned (sample (refResize (plain 400 200) 79 20))) by reflexivity.
  split; [exact Htw |]. split; [exact Hsize |]. split; [exact Hgrid |].
  exact (width_fits_surface refResize 80 24 (plain 400 200) [] 0 0
                            false false false false _ 79 20 Htw Hsize Hgrid).
Defined.
